(** * Mattermost: channel bookmarks and the outbound mail service

    A shallow embedding of two pieces of the server:

    - [server/public/model]: the channel bookmark record.  Only its test
      file is available, so the record's operations are modelled from the
      specification and checked against the rows of the test table.
    - [services/mailservice/mail.go]: connection set-up, authentication
      and transmission of a mail over SMTP, embedded from the Go source
      with the network and the libraries it calls as explicit parameters.

    Go strings are byte sequences and so are Rocq strings; [[]byte(s)] is
    therefore the identity here.  [int64] fields are [Z]: no arithmetic is
    done on them. *)

From Stdlib Require Import Ascii String ZArith Lia.
From stdpp Require Import base strings pretty gmap list.

Open Scope string_scope.
Open Scope Z_scope.

(* ===================================================================== *)
(** * Part I: the channel bookmark record (package model)                *)
(* ===================================================================== *)

Module Bookmark.

(** [ChannelBookmarkType] is a string type; the test file uses the two
    constants below, the empty string and ["invalid"]. *)
Definition ChannelBookmarkLink : string := "link".
Definition ChannelBookmarkFile : string := "file".

(** The fields are those the test file writes
    (channel_bookmark_test.go, lines 26-40 and 382, 402). *)
Record ChannelBookmark := {
  Id : string;
  CreateAt : Z;
  UpdateAt : Z;
  DeleteAt : Z;
  ChannelId : string;
  OwnerId : string;
  FileId : string;
  DisplayName : string;
  SortOrder : Z;
  LinkUrl : string;
  ImageUrl : string;
  Emoji : string;
  Type_ : string;   (* the Go field [Type] *)
  OriginalId : string;
  ParentId : string
}.

(** The zero value [&ChannelBookmark{}]. *)
Definition zeroBookmark : ChannelBookmark :=
  {| Id := ""; CreateAt := 0; UpdateAt := 0; DeleteAt := 0; ChannelId := "";
     OwnerId := ""; FileId := ""; DisplayName := ""; SortOrder := 0;
     LinkUrl := ""; ImageUrl := ""; Emoji := ""; Type_ := "";
     OriginalId := ""; ParentId := "" |}.

(** The kinds of validation failure the specification enumerates, in the
    order it lists them. *)
Inductive ValidationError :=
| InvalidId
| InvalidOwnerId
| InvalidChannelId
| InvalidDisplayName
| InvalidType
| InvalidLinkUrl
| InvalidImageUrl
| InvalidFileId
| InvalidOriginalId
| InvalidParentId
| InvalidCreateAt
| InvalidUpdateAt.

Definition isEmpty (s : string) : bool := String.eqb s "".

Section Validator.

(** The two format checks ([IsValidId], [IsValidHTTPURL]) live elsewhere
    in package model; the validator is parametric in them. *)
Variable IsValidId : string -> bool.
Variable IsValidHTTPURL : string -> bool.

(** "missing/malformed": the field is empty or fails its format check. *)
Definition missingId (s : string) : bool := isEmpty s || negb (IsValidId s).
Definition missingURL (s : string) : bool :=
  isEmpty s || negb (IsValidHTTPURL s).

(** "malformed optional": the field is set and fails its format check. *)
Definition malformedOptId (s : string) : bool :=
  negb (isEmpty s) && negb (IsValidId s).
Definition malformedOptURL (s : string) : bool :=
  negb (isEmpty s) && negb (IsValidHTTPURL s).

(** Modelled from the spec: [ChannelBookmark.IsValid] is missing from the
    sources (only its test table is present).  The specification, section
    4.2: "a pure, side-effect-free check function returning either valid
    or a first-encountered validation failure among: missing/malformed
    identifier, missing/malformed owner or channel reference, missing
    display name, unrecognized or empty type tag, type-specific
    required-field absence or malformed value, malformed optional
    cross-reference fields, and missing creation/update timestamps".
    The optional image URL is format-checked when set, as rows 15 and 16
    of the test table require.  [None] is Go's nil error. *)
Definition IsValid (o : ChannelBookmark) : option ValidationError :=
  if missingId (Id o) then Some InvalidId
  else if missingId (OwnerId o) then Some InvalidOwnerId
  else if missingId (ChannelId o) then Some InvalidChannelId
  else if isEmpty (DisplayName o) then Some InvalidDisplayName
  else if negb (String.eqb (Type_ o) ChannelBookmarkLink
                || String.eqb (Type_ o) ChannelBookmarkFile)
       then Some InvalidType
  else if String.eqb (Type_ o) ChannelBookmarkLink && missingURL (LinkUrl o)
       then Some InvalidLinkUrl
  else if malformedOptURL (ImageUrl o) then Some InvalidImageUrl
  else if String.eqb (Type_ o) ChannelBookmarkFile && missingId (FileId o)
       then Some InvalidFileId
  else if malformedOptId (OriginalId o) then Some InvalidOriginalId
  else if malformedOptId (ParentId o) then Some InvalidParentId
  else if CreateAt o =? 0 then Some InvalidCreateAt
  else if UpdateAt o =? 0 then Some InvalidUpdateAt
  else None.

End Validator.

(** Modelled from the spec: [ChannelBookmark.PreSave] is missing from the
    sources.  The specification, section 4.2: the operation "sets creation
    and update timestamps to the current time on first save"; section 8:
    it "leaves all other fields unchanged".  [now] is the reading of the
    millisecond clock taken by the call. *)
Definition PreSave (now : Z) (o : ChannelBookmark) : ChannelBookmark :=
  {| Id := Id o; CreateAt := now; UpdateAt := now; DeleteAt := DeleteAt o;
     ChannelId := ChannelId o; OwnerId := OwnerId o; FileId := FileId o;
     DisplayName := DisplayName o; SortOrder := SortOrder o;
     LinkUrl := LinkUrl o; ImageUrl := ImageUrl o; Emoji := Emoji o;
     Type_ := Type_ o; OriginalId := OriginalId o; ParentId := ParentId o |}.

(** Modelled from the spec: [ChannelBookmark.PreUpdate] is missing from the
    sources.  The specification, section 4.2: the operation "advances only
    the update timestamp (to a value strictly greater than its previous
    value) on subsequent updates"; section 3: "update timestamp advanced
    (strictly greater, monotonic)".  [now] is the reading of the
    millisecond clock taken by the call: it is the new value when it is
    later than the stored one, and the stored value is advanced by one
    millisecond when the clock has not moved past it. *)
Definition PreUpdate (now : Z) (o : ChannelBookmark) : ChannelBookmark :=
  {| Id := Id o; CreateAt := CreateAt o;
     UpdateAt := Z.max now (UpdateAt o + 1);
     DeleteAt := DeleteAt o;
     ChannelId := ChannelId o; OwnerId := OwnerId o; FileId := FileId o;
     DisplayName := DisplayName o; SortOrder := SortOrder o;
     LinkUrl := LinkUrl o; ImageUrl := ImageUrl o; Emoji := Emoji o;
     Type_ := Type_ o; OriginalId := OriginalId o; ParentId := ParentId o |}.

(** Modelled from the spec: [ChannelBookmark.Etag] is missing from the
    sources.  The specification, section 4.2: "a deterministic fingerprint
    (derived from identifier and update timestamp)".  The specification
    fixes the two inputs and not the rendering; the rendering taken here
    is the server's version string followed by each input after a dot,
    the timestamp in decimal (Go's [%v] of an [int64]). *)
Definition Etag (CurrentVersion : string) (o : ChannelBookmark) : string :=
  CurrentVersion +:+ "." +:+ Id o +:+ "." +:+ pretty (UpdateAt o).

(** ** The conditions the testable properties speak of *)

Section Conditions.

Variable IsValidId : string -> bool.
Variable IsValidHTTPURL : string -> bool.

(** "a non-empty, well-formed" identifier or URL. *)
Definition presentId (s : string) : Prop := s <> "" /\ IsValidId s = true.
Definition presentURL (s : string) : Prop :=
  s <> "" /\ IsValidHTTPURL s = true.

(** An optional field: left empty, or well-formed. *)
Definition optionalId (s : string) : Prop := s = "" \/ IsValidId s = true.
Definition optionalURL (s : string) : Prop :=
  s = "" \/ IsValidHTTPURL s = true.

(** The fields every valid record has. *)
Definition commonFields (o : ChannelBookmark) : Prop :=
  presentId (Id o) /\ presentId (OwnerId o) /\ presentId (ChannelId o)
  /\ DisplayName o <> "" /\ CreateAt o <> 0 /\ UpdateAt o <> 0.

(** A link record with everything the first testable property lists. *)
Definition linkRecord (o : ChannelBookmark) : Prop :=
  commonFields o /\ Type_ o = ChannelBookmarkLink /\ presentURL (LinkUrl o).

(** The optional fields are empty or well-formed. *)
Definition optionalFields (o : ChannelBookmark) : Prop :=
  optionalURL (ImageUrl o) /\ optionalId (OriginalId o)
  /\ optionalId (ParentId o).

(** A record lacking one of the fields of the first property: an
    identifier, the display name, a timestamp, a type tag that is link or
    file, the URL of a link, or the file reference of a file. *)
Definition lacksField (o : ChannelBookmark) : Prop :=
  ~ presentId (Id o) \/ ~ presentId (OwnerId o) \/ ~ presentId (ChannelId o)
  \/ DisplayName o = "" \/ CreateAt o = 0 \/ UpdateAt o = 0
  \/ (Type_ o <> ChannelBookmarkLink /\ Type_ o <> ChannelBookmarkFile)
  \/ (Type_ o = ChannelBookmarkLink /\ ~ presentURL (LinkUrl o))
  \/ (Type_ o = ChannelBookmarkFile /\ ~ presentId (FileId o)).

End Conditions.

(** The field the type tag requires is there and well-formed. *)
Definition typeFields (IsValidId IsValidHTTPURL : string -> bool)
    (o : ChannelBookmark) : Prop :=
  (Type_ o = ChannelBookmarkLink /\ presentURL IsValidHTTPURL (LinkUrl o))
  \/ (Type_ o = ChannelBookmarkFile /\ presentId IsValidId (FileId o)).

(** ** Fixtures of the test file *)

Definition isAlnum (c : ascii) : bool :=
  let n := Ascii.N_of_ascii c in
  ((48 <=? n) && (n <=? 57) || (65 <=? n) && (n <=? 90)
   || (97 <=? n) && (n <=? 122))%N.

Definition notDot (c : ascii) : bool := negb (Ascii.eqb c ".").

Fixpoint forallbString (p : ascii -> bool) (s : string) : bool :=
  match s with
  | EmptyString => true
  | String c r => p c && forallbString p r
  end.

(** No character of the string is a dot. *)
Definition dotFree (s : string) : Prop := forallbString notDot s = true.

(** Sample format checks used to run the rows of the test table: an
    identifier is 26 letters or digits, a URL starts with an http scheme
    and has a host. *)
Definition sampleIsValidId (s : string) : bool :=
  (Nat.eqb (String.length s) 26) && forallbString isAlnum s.

Definition sampleIsValidHTTPURL (s : string) : bool :=
  (String.prefix "http://" s && negb (String.eqb s "http://"))
  || (String.prefix "https://" s && negb (String.eqb s "https://")).

(** Stand-ins for the values [NewId()] returns in the test file. *)
Definition id1 : string := "aaaaaaaaaaaaaaaaaaaaaaaaa1".
Definition id2 : string := "bbbbbbbbbbbbbbbbbbbbbbbbb2".
Definition id3 : string := "ccccccccccccccccccccccccc3".
Definition id4 : string := "ddddddddddddddddddddddddd4".

(** The rows of [TestChannelBookmarkIsValid] share this shape. *)
Definition row (channel owner file name link image type : string)
    (create update : Z) (original parent : string) : ChannelBookmark :=
  {| Id := id1; CreateAt := create; UpdateAt := update; DeleteAt := 4;
     ChannelId := channel; OwnerId := owner; FileId := file;
     DisplayName := name; SortOrder := 0; LinkUrl := link;
     ImageUrl := image; Emoji := ""; Type_ := type;
     OriginalId := original; ParentId := parent |}.

(** [TestChannelBookmarkIsValid]: each bookmark with [ExpectedIsValid]. *)
Definition testCases : list (ChannelBookmark * bool) :=
  let dn := "display name" in
  let mm := "https://mattermost.com" in
  [ (zeroBookmark, false);
    (row "" id2 "" dn "" "" ChannelBookmarkLink 0 3 "" "", false);
    (row "" id2 "" dn "" "" ChannelBookmarkLink 2 0 "" "", false);
    (row "" id2 "" dn "" "" ChannelBookmarkLink 2 3 "" "", false);
    (row "invalid" id2 "" dn "" "" ChannelBookmarkLink 2 3 "" "", false);
    (row id3 "" "" dn "" "" ChannelBookmarkLink 2 3 "" "", false);
    (row id3 "invalid" "" dn "" "" ChannelBookmarkLink 2 3 "" "", false);
    (row id3 id2 "" "" "" "" ChannelBookmarkLink 2 3 "" "", false);
    (row id3 id2 "" dn "" "" "" 2 3 "" "", false);
    (row id3 id2 "" dn "" "" "invalid" 2 3 "" "", false);
    (row id3 id2 "" dn "" "" ChannelBookmarkLink 2 3 "" "", false);
    (row id3 id2 "" dn "invalid" "" ChannelBookmarkLink 2 3 "" "", false);
    (row id3 id2 "" dn mm "" ChannelBookmarkLink 2 3 "" "", true);
    (row id3 id2 "" dn mm "" ChannelBookmarkLink 2 3 "" "", true);
    (row id3 id2 "" dn mm "invalid" ChannelBookmarkLink 2 3 "" "", false);
    (row id3 id2 "" dn mm
         "https://mattermost.com/some-image-without-extension"
         ChannelBookmarkLink 2 3 "" "", true);
    (row id3 id2 "" dn "" "" ChannelBookmarkFile 2 3 "" "", false);
    (row id3 id2 "invalid" dn "" "" ChannelBookmarkFile 2 3 "" "", false);
    (row id3 id2 id4 dn "" "" ChannelBookmarkFile 2 3 "" "", true);
    (row id3 id2 id4 dn "" "" ChannelBookmarkFile 2 3 "invalid" "", false);
    (row id3 id2 id4 dn "" "" ChannelBookmarkFile 2 3 "" "invalid", false) ].

(** Rows 13, 15 and 17 of the table: a valid link, the same link with a
    malformed image URL, and a file bookmark without its file. *)
Definition validLinkRow : ChannelBookmark :=
  row id3 id2 "" "display name" "https://mattermost.com" ""
      ChannelBookmarkLink 2 3 "" "".

Definition badImageRow : ChannelBookmark :=
  row id3 id2 "" "display name" "https://mattermost.com" "invalid"
      ChannelBookmarkLink 2 3 "" "".

Definition fileMissingRow : ChannelBookmark :=
  row id3 id2 "" "display name" "" "" ChannelBookmarkFile 2 3 "" "".

(** Row 9 of the table: no type tag. *)
Definition typeMissingRow : ChannelBookmark :=
  row id3 id2 "" "display name" "" "" "" 2 3 "" "".

(** The bookmark of [TestChannelBookmarkPreSave]: no timestamps yet. *)
Definition freshBookmark : ChannelBookmark :=
  {| Id := id1; CreateAt := 0; UpdateAt := 0; DeleteAt := 0;
     ChannelId := id3; OwnerId := id2; FileId := "";
     DisplayName := "display name"; SortOrder := 0;
     LinkUrl := "https://mattermost.com"; ImageUrl := ""; Emoji := "";
     Type_ := ChannelBookmarkLink; OriginalId := ""; ParentId := "" |}.

(** The test's loop body: [require.Nil] or [require.NotNil] on [IsValid]. *)
Definition rowPasses (tc : ChannelBookmark * bool) : bool :=
  match IsValid sampleIsValidId sampleIsValidHTTPURL (fst tc), snd tc with
  | None, true => true
  | Some _, false => true
  | _, _ => false
  end.

End Bookmark.

(* ===================================================================== *)
(** * Part II: the outbound mail service (package mailservice)           *)
(* ===================================================================== *)

(** ** Go errors

    [errors.New] and [errors.Wrap] of github.com/pkg/errors, and the two
    sentinel errors of package context.  [Error] is the [Error()] method:
    the message text. *)
Inductive GoError :=
| errorsNew (msg : string)
| contextCanceled
| contextDeadlineExceeded
| errorsWrap (cause : GoError) (msg : string).

Fixpoint Error (e : GoError) : string :=
  match e with
  | errorsNew msg => msg
  | contextCanceled => "context canceled"
  | contextDeadlineExceeded => "context deadline exceeded"
  | errorsWrap cause msg => msg +:+ ": " +:+ Error cause
  end.

(** A Go result [(value, error)]: [Err e] is a non-nil error. *)
Inductive result (A : Type) :=
| Ok (a : A)
| Err (e : GoError).
Arguments Ok {A} a.
Arguments Err {A} e.

(** A function returning only [error]: [None] is nil. *)
Definition ofError (r : option GoError) : result unit :=
  match r with
  | None => Ok tt
  | Some e => Err e
  end.

(** ** The mail message built with gopkg.in/mail.v2 *)

Module Address.
(** [mail.Address] of net/mail. *)
Record t := { Name : string; Address : string }.
End Address.

Definition Time := Z.
Definition Reader := string.

Module gomail.
Record Message := {
  charset : string;
  header : gmap string (list string);
  parts : list (string * string);        (* content type, body *)
  embedded : gmap string Reader
}.

Definition NewMessage (charset : string) : Message :=
  {| charset := charset; header := ∅; parts := []; embedded := ∅ |}.

Definition SetHeaders (h : gmap string (list string)) (m : Message)
  : Message :=
  {| charset := charset m;
     header := map_fold (λ k v acc, <[k := v]> acc) (header m) h;
     parts := parts m; embedded := embedded m |}.

Definition SetHeader (field : string) (value : list string) (m : Message)
  : Message :=
  {| charset := charset m; header := <[field := value]> (header m);
     parts := parts m; embedded := embedded m |}.

Definition SetBody (contentType body : string) (m : Message) : Message :=
  {| charset := charset m; header := header m;
     parts := [(contentType, body)]; embedded := embedded m |}.

Definition AddAlternative (contentType body : string) (m : Message)
  : Message :=
  {| charset := charset m; header := header m;
     parts := (parts m ++ [(contentType, body)])%list; embedded := embedded m |}.

Definition EmbedReader (name : string) (r : Reader) (m : Message)
  : Message :=
  {| charset := charset m; header := header m; parts := parts m;
     embedded := <[name := r]> (embedded m) |}.
End gomail.

(** ** The world outside the process

    Every call that reaches the network is recorded, in order. *)
Inductive Action :=
| ActDial (address : string) (timeout : Z)
| ActDialTLS (address : string) (timeout : Z)
             (InsecureSkipVerify : bool) (ServerName : string)
| ActNewClient (host : string)
| ActHello (localName : string)
| ActStartTLS (InsecureSkipVerify : bool) (ServerName : string)
| ActAuth
| ActMail (from : string)
| ActRcpt (to : string)
| ActData
| ActWrite (m : gomail.Message)
| ActCloseData
| ActClientClose
| ActClientQuit
| ActConnClose.

(** An effectful computation threads the record of actions and returns a
    Go result. *)
Definition Eff (A : Type) : Type := list Action -> list Action * result A.

Definition effRet {A} (a : A) : Eff A := λ log, (log, Ok a).

Definition effBind {A B} (m : Eff A) (k : A -> Eff B) : Eff B :=
  λ log, match m log with
         | (log', Ok a) => k a log'
         | (log', Err e) => (log', Err e)
         end.

Notation "x <- m ;; k" := (effBind m (λ x, k))
  (at level 100, m at next level, right associativity, only parsing).
Notation "m ;;; k" := (effBind m (λ _, k))
  (at level 100, right associativity, only parsing).

(** One call to the outside: record it, return the environment's answer. *)
Definition perform {A} (a : Action) (r : result A) : Eff A :=
  λ log, ((log ++ [a])%list, r).

(** [if err != nil { return errors.Wrap(err, msg) }] *)
Definition wrapErr {A} (m : Eff A) (msg : string) : Eff A :=
  λ log, match m log with
         | (log', Ok a) => (log', Ok a)
         | (log', Err e) => (log', Err (errorsWrap e msg))
         end.

(** A call whose [error] result is dropped. *)
Definition ignoreErr (m : Eff unit) : Eff unit :=
  λ log, (fst (m log), Ok tt).

(** [defer d]: [d] runs when the body returns, whatever it returns; what
    [d] itself returns is dropped. *)
Definition defer {A} (d : Eff unit) (body : Eff A) : Eff A :=
  λ log, match body log with
         | (log', r) => (fst (d log'), r)
         end.

(** Run from an empty record. *)
Definition run {A} (m : Eff A) : list Action * result A := m [].

Module smtp.
(** [smtp.ServerInfo] of net/smtp. *)
Record ServerInfo := { Name : string; TLS : bool; Auth : list string }.
End smtp.

(** The outcome of the [select] in [NewSMTPClientAdvanced]: the context
    is done, with [ctx.Err()], or the goroutine sent the error of
    [smtp.NewClient] on the channel.  A context that is not yet done when
    the function is entered is cancelled by the goroutine, after it has
    stored the client, or passes its deadline. *)
Inductive SelectOutcome :=
| CtxDone (err : option GoError)
| EcRecv (err : GoError).

(** [time.Duration] is an [int64] of nanoseconds and [time.Second] is
    [1000000000] of them; a product that does not fit wraps around. *)
Definition timeSecond : Z := 1000000000.

Definition wrapInt64 (z : Z) : Z :=
  (z + 9223372036854775808) mod 18446744073709551616 - 9223372036854775808.

(** [time.Duration(sec) * time.Second] (lines 137, 255 and 305). *)
Definition secondsDuration (sec : Z) : Z := wrapInt64 (sec * timeSecond).

(** A [context.Context], as far as the package looks at it: [None] while
    it is not done, [Some e] once it is, [e] being [ctx.Err()]. *)
Definition GoContext := option GoError.

Definition contextBackground : GoContext := None.

(** [context.WithTimeout (parent, d)]: a deadline that is not in the
    future makes the context done from the start. *)
Definition contextWithTimeout (parent : GoContext) (d : Z) : GoContext :=
  match parent with
  | Some e => Some e
  | None => if d <=? 0 then Some contextDeadlineExceeded else None
  end.

(** Which case of the [select] (lines 188-197) fires for a context
    [ctx].  For a context that is live on entry, [raced] is how the race
    between the server's greeting and the deadline ends; that is the
    network's to decide.  When [ctx] is done on entry the context
    derived from it (line 174) is done with the same error and its
    [Done] channel is ready at once, so that case is taken, with that
    error, unless the goroutine's error was ready too and won. *)
Definition selected (ctx : GoContext) (raced : SelectOutcome)
  : SelectOutcome :=
  match ctx with
  | None => raced
  | Some e =>
      match raced with
      | EcRecv err => EcRecv err
      | CtxDone _ => CtxDone (Some e)
      end
  end.

(** The error of a dial whose deadline has passed (package net). *)
Definition dialTimeout (address : string) : GoError :=
  errorsNew ("dial tcp " +:+ address +:+ ": i/o timeout").

(** What a dial with [Dialer.Timeout] [d] returns: a negative timeout is
    a deadline in the past and fails the dial, zero is no timeout. *)
Definition dialAnswer (d : Z) (address : string) (answer : option GoError)
  : option GoError :=
  if d <? 0 then Some (dialTimeout address) else answer.

(** What the network and the server answer to each call. *)
Record Network := {
  dial : string -> option GoError;
  dialTLS : string -> option GoError;
  handshake : SelectOutcome;
  hello : string -> option GoError;
  startTLS : option GoError;
  serverInfo : smtp.ServerInfo;
  authExchange : option GoError;
  mailFrom : string -> option GoError;
  rcptTo : string -> option GoError;
  data : option GoError;
  writeTo : gomail.Message -> option GoError;
  closeData : option GoError;
  timeNow : Time
}.

(** The library functions the package calls. *)
Record Libs := {
  BEncodingEncode : string -> string -> string;  (* mime.BEncoding.Encode *)
  AddressString : Address.t -> string;           (* mail.Address.String *)
  html2textFromString : string -> string * option GoError;
  FormatDate : Time -> string;                   (* gomail Message.FormatDate *)
  plainAuthStart : string -> string -> string -> string ->
                   smtp.ServerInfo -> result (string * string)
}.

(** ** Configuration and message data (mail.go, lines 23-78) *)

Definition connSecurityTls : string := "TLS".
Definition connSecurityStarttls : string := "STARTTLS".

Module SMTPConfig.
Record t := {
  ConnectionSecurity : string;
  SkipServerCertificateVerification : bool;
  Hostname : string;
  Server : string;
  Port : string;
  ServerTimeout : Z;
  Username : string;
  Password : string;
  EnableSMTPAuth : bool;
  SendEmailNotifications : bool;
  FeedbackName : string;
  FeedbackEmail : string;
  ReplyToAddress : string
}.
End SMTPConfig.

Module SmtpConnectionInfo.
Record t := {
  SmtpUsername : string;
  SmtpPassword : string;
  SmtpServerName : string;
  SmtpServerHost : string;
  SmtpPort : string;
  SmtpServerTimeout : Z;
  SkipCertVerification : bool;
  ConnectionSecurity : string;
  Auth : bool
}.
End SmtpConnectionInfo.

Record mailData := {
  mimeTo : string;
  smtpTo : string;
  from : Address.t;
  cc : string;
  replyTo : Address.t;
  subject : string;
  htmlBody : string;
  embeddedFiles : gmap string Reader;
  mimeHeaders : gmap string string
}.

(** [net.Conn], as returned by the dialer. *)
Inductive Conn :=
| TCPConn (address : string)
| TLSConn (address : string).

(** [*smtp.Client], as returned by [smtp.NewClient (conn, host)]. *)
Record Client := { clientConn : Conn; serverName : string }.

(** [io.WriteCloser]; [gomail]'s [WriteTo] writes the whole message. *)
Record WriteCloser := {
  Write : gomail.Message -> Eff unit;
  Close : Eff unit
}.

(** The interface [smtpClient] (mail.go, lines 58-62). *)
Class smtpClient (C : Type) := {
  Mail : C -> string -> Eff unit;
  Rcpt : C -> string -> Eff unit;
  Data : C -> Eff WriteCloser
}.

(** The closed set of [smtp.Auth] values the package builds: its own
    [loginAuth] and the library's [smtp.PlainAuth]. *)
Inductive smtpAuth :=
| LoginAuth (username password host : string)
| PlainAuth (identity username password host : string).

(** [authChooser] embeds an [smtp.Auth], nil until [Start] sets it. *)
Record authChooser := {
  Auth : option smtpAuth;
  connectionInfo : SmtpConnectionInfo.t
}.

Definition crlf : string := String "013" (String "010" "").

(** [loginAuth.Start] (lines 105-115). *)
Definition loginAuth_Start (username password host : string)
    (server : smtp.ServerInfo) : result (string * string) :=
  if negb (smtp.TLS server) then Err (errorsNew "unencrypted connection")
  else if negb (String.eqb (smtp.Name server) host)
       then Err (errorsNew "wrong host name")
  else Ok ("LOGIN", "").

(** [loginAuth.Next] (lines 117-129); [None] is the nil slice. *)
Definition loginAuth_Next (username password host : string)
    (fromServer : string) (more : bool) : result (option string) :=
  if more then
    if String.eqb fromServer "Username:" then Ok (Some username)
    else if String.eqb fromServer "Password:" then Ok (Some password)
    else Err (errorsNew "Unknown fromServer")
  else Ok None.

(** The loop of [authChooser.Start] (lines 88-93): [current] is [a.Auth]
    on entry, [plain] what the first ["PLAIN"] method replaces it with. *)
Fixpoint rangeServerAuth (methods : list string) (current plain : smtpAuth)
  : smtpAuth :=
  match methods with
  | [] => current
  | method :: rest =>
      if String.eqb method "PLAIN" then plain
      else rangeServerAuth rest current plain
  end.

Definition effFail {A} (e : GoError) : Eff A := λ log, (log, Err e).

Section mailservice.

Context (net : Network) (lib : Libs).

(** *** Methods of [net.Conn] and [*smtp.Client], answered by [net] *)

Definition Conn_Close (conn : Conn) : Eff unit :=
  perform ActConnClose (Ok tt).

Definition Client_Hello (c : Client) (localName : string) : Eff unit :=
  perform (ActHello localName) (ofError (hello net localName)).

Definition Client_StartTLS (c : Client) (InsecureSkipVerify : bool)
    (ServerName : string) : Eff unit :=
  perform (ActStartTLS InsecureSkipVerify ServerName)
          (ofError (startTLS net)).

Definition Client_Close (c : Client) : Eff unit :=
  perform ActClientClose (Ok tt).

Definition Client_Quit (c : Client) : Eff unit :=
  perform ActClientQuit (Ok tt).

(** [Client.Auth] calls the mechanism's [Start] with what it knows of
    the server; when that fails it quits and returns the error, else it
    runs the exchange with the server. *)
Definition Client_Auth (c : Client)
    (start : smtp.ServerInfo -> result (string * string)) : Eff unit :=
  match start (serverInfo net) with
  | Err e => ignoreErr (Client_Quit c) ;;; effFail e
  | Ok _ => perform ActAuth (ofError (authExchange net))
  end.

Definition dataWriter : WriteCloser :=
  {| Write := λ m, perform (ActWrite m) (ofError (writeTo net m));
     Close := perform ActCloseData (ofError (closeData net)) |}.

Definition Client_Mail (c : Client) (from : string) : Eff unit :=
  perform (ActMail from) (ofError (mailFrom net from)).

Definition Client_Rcpt (c : Client) (to : string) : Eff unit :=
  perform (ActRcpt to) (ofError (rcptTo net to)).

Definition Client_Data (c : Client) : Eff WriteCloser :=
  perform ActData (match data net with
                   | None => Ok dataWriter
                   | Some e => Err e
                   end).

#[local] Instance Client_smtpClient : smtpClient Client :=
  {| Mail := Client_Mail; Rcpt := Client_Rcpt; Data := Client_Data |}.

(** *** mail.go *)

Definition encodeRFC2047Word (s : string) : string :=
  BEncodingEncode lib "utf-8" s.

(** The [Start] method of an [smtp.Auth] value. *)
Definition Auth_Start (a : smtpAuth) (server : smtp.ServerInfo)
  : result (string * string) :=
  match a with
  | LoginAuth username password host =>
      loginAuth_Start username password host server
  | PlainAuth identity username password host =>
      plainAuthStart lib identity username password host server
  end.

(** [authChooser.Start] (lines 85-95): the chooser after the call, with
    [a.Auth] set, and what the chosen mechanism's [Start] returns. *)
Definition authChooser_Start (a : authChooser) (server : smtp.ServerInfo)
  : authChooser * result (string * string) :=
  let info := connectionInfo a in
  let smtpAddress := SmtpConnectionInfo.SmtpServerName info +:+ ":"
                     +:+ SmtpConnectionInfo.SmtpPort info in
  let auth := LoginAuth (SmtpConnectionInfo.SmtpUsername info)
                        (SmtpConnectionInfo.SmtpPassword info) smtpAddress in
  let auth :=
    rangeServerAuth (smtp.Auth server) auth
      (PlainAuth "" (SmtpConnectionInfo.SmtpUsername info)
                 (SmtpConnectionInfo.SmtpPassword info)
                 (SmtpConnectionInfo.SmtpServerName info +:+ ":"
                  +:+ SmtpConnectionInfo.SmtpPort info)) in
  ({| Auth := Some auth; connectionInfo := info |}, Auth_Start auth server).

(** [ConnectToSMTPServerAdvanced] (lines 131-158).  The action records
    the timeout in seconds, as configured; the dialer is given
    [secondsDuration] of it. *)
Definition ConnectToSMTPServerAdvanced
    (connectionInfo : SmtpConnectionInfo.t) : Eff Conn :=
  let smtpAddress := SmtpConnectionInfo.SmtpServerHost connectionInfo
                     +:+ ":" +:+ SmtpConnectionInfo.SmtpPort connectionInfo in
  let timeout := SmtpConnectionInfo.SmtpServerTimeout connectionInfo in
  let dialerTimeout := secondsDuration timeout in
  if String.eqb (SmtpConnectionInfo.ConnectionSecurity connectionInfo)
                connSecurityTls
  then
    wrapErr
      (perform
         (ActDialTLS smtpAddress timeout
            (SmtpConnectionInfo.SkipCertVerification connectionInfo)
            (SmtpConnectionInfo.SmtpServerName connectionInfo))
         (match dialAnswer dialerTimeout smtpAddress
                  (dialTLS net smtpAddress) with
          | None => Ok (TLSConn smtpAddress)
          | Some e => Err e
          end))
      "unable to connect to the SMTP server through TLS"
  else
    wrapErr
      (perform (ActDial smtpAddress timeout)
         (match dialAnswer dialerTimeout smtpAddress
                  (dial net smtpAddress) with
          | None => Ok (TCPConn smtpAddress)
          | Some e => Err e
          end))
      "unable to connect to the SMTP server".

(** [ConnectToSMTPServer] (lines 160-171); the fields it does not set
    are Go zero values. *)
Definition ConnectToSMTPServer (config : SMTPConfig.t) : Eff Conn :=
  ConnectToSMTPServerAdvanced
    {| SmtpConnectionInfo.ConnectionSecurity :=
         SMTPConfig.ConnectionSecurity config;
       SmtpConnectionInfo.SkipCertVerification :=
         SMTPConfig.SkipServerCertificateVerification config;
       SmtpConnectionInfo.SmtpServerName := SMTPConfig.Server config;
       SmtpConnectionInfo.SmtpServerHost := SMTPConfig.Server config;
       SmtpConnectionInfo.SmtpPort := SMTPConfig.Port config;
       SmtpConnectionInfo.SmtpServerTimeout :=
         SMTPConfig.ServerTimeout config;
       SmtpConnectionInfo.Auth := false;
       SmtpConnectionInfo.SmtpUsername := "";
       SmtpConnectionInfo.SmtpPassword := "" |}.

(** [NewSMTPClientAdvanced] (lines 173-220).  The goroutine and the
    [select] (lines 177-197) are the first step: [smtp.NewClient] is
    started on the connection and [selected ctx (handshake net)] is the
    case of the [select] that fires.  The result of [c.StartTLS]
    (line 211) is not looked at. *)
Definition NewSMTPClientAdvanced (ctx : GoContext) (conn : Conn)
    (hostname : string) (connectionInfo : SmtpConnectionInfo.t)
  : Eff Client :=
  let host := SmtpConnectionInfo.SmtpServerName connectionInfo +:+ ":"
              +:+ SmtpConnectionInfo.SmtpPort connectionInfo in
  let c := {| clientConn := conn; serverName := host |} in
  perform (ActNewClient host) (Ok tt) ;;;
  (match selected ctx (handshake net) with
   | CtxDone err =>
       match err with
       | Some e =>
           if negb (String.eqb (Error e) "context canceled")
           then effFail (errorsWrap e "unable to connect to the SMTP server")
           else effRet tt
       | None => effRet tt
       end
   | EcRecv err =>
       effFail (errorsWrap err "unable to connect to the SMTP server")
   end) ;;;
  (if negb (String.eqb hostname "")
   then wrapErr (Client_Hello c hostname) "unable to send hello message"
   else effRet tt) ;;;
  (if String.eqb (SmtpConnectionInfo.ConnectionSecurity connectionInfo)
                 connSecurityStarttls
   then ignoreErr
          (Client_StartTLS c
             (SmtpConnectionInfo.SkipCertVerification connectionInfo)
             (SmtpConnectionInfo.SmtpServerName connectionInfo))
   else effRet tt) ;;;
  (if SmtpConnectionInfo.Auth connectionInfo
   then wrapErr
          (Client_Auth c
             (λ server,
                snd (authChooser_Start
                       {| Auth := None; connectionInfo := connectionInfo |}
                       server)))
          "authentication failed"
   else effRet tt) ;;;
  effRet c.

(** [NewSMTPClient] (lines 222-239). *)
Definition NewSMTPClient (ctx : GoContext) (conn : Conn)
    (config : SMTPConfig.t) : Eff Client :=
  NewSMTPClientAdvanced ctx conn (SMTPConfig.Hostname config)
    {| SmtpConnectionInfo.ConnectionSecurity :=
         SMTPConfig.ConnectionSecurity config;
       SmtpConnectionInfo.SkipCertVerification :=
         SMTPConfig.SkipServerCertificateVerification config;
       SmtpConnectionInfo.SmtpServerName := SMTPConfig.Server config;
       SmtpConnectionInfo.SmtpServerHost := SMTPConfig.Server config;
       SmtpConnectionInfo.SmtpPort := SMTPConfig.Port config;
       SmtpConnectionInfo.SmtpServerTimeout :=
         SMTPConfig.ServerTimeout config;
       SmtpConnectionInfo.Auth := SMTPConfig.EnableSMTPAuth config;
       SmtpConnectionInfo.SmtpUsername := SMTPConfig.Username config;
       SmtpConnectionInfo.SmtpPassword := SMTPConfig.Password config |}.

(** [TestConnection] (lines 241-266). *)
Definition TestConnection (config : SMTPConfig.t) : Eff unit :=
  if negb (SMTPConfig.SendEmailNotifications config)
  then effFail (errorsNew "SendEmailNotifications is not true")
  else
    conn <- wrapErr (ConnectToSMTPServer config) "unable to connect" ;;
    defer (Conn_Close conn)
      (let sec := SMTPConfig.ServerTimeout config in
       let ctx := contextWithTimeout contextBackground
                    (secondsDuration sec) in
       c <- wrapErr (NewSMTPClient ctx conn config) "unable to connect" ;;
       ignoreErr (Client_Close c) ;;;
       ignoreErr (Client_Quit c) ;;;
       effRet tt).

(** The text part of [SendMail] (lines 323-327): the converted body, or
    the empty string when the conversion fails. *)
Definition plainTextOf (html : string) : string :=
  match html2textFromString lib html with
  | (txtBody, None) => txtBody
  | (_, Some _) => ""
  end.

(** The headers of [SendMail] (lines 329-348). *)
Definition mailHeaders (mail : mailData) : gmap string (list string) :=
  let headers : gmap string (list string) :=
    <["Precedence" := ["bulk"]]>
    (<["Auto-Submitted" := ["auto-generated"]]>
    (<["Content-Transfer-Encoding" := ["8bit"]]>
    (<["Subject" := [encodeRFC2047Word (subject mail)]]>
    (<["To" := [mimeTo mail]]>
    (<["From" := [AddressString lib (from mail)]]> ∅))))) in
  let headers :=
    if negb (String.eqb (Address.Address (replyTo mail)) "")
    then <["Reply-To" := [AddressString lib (replyTo mail)]]> headers
    else headers in
  let headers :=
    if negb (String.eqb (cc mail) "")
    then <["CC" := [cc mail]]> headers
    else headers in
  map_fold (λ k v acc, <[k := [encodeRFC2047Word v]]> acc)
           headers (mimeHeaders mail).

(** The message of [SendMail] (lines 350-358). *)
Definition mailMessage (mail : mailData) (date : Time) : gomail.Message :=
  let htmlMessage := crlf +:+ "<html><body>" +:+ htmlBody mail
                     +:+ "</body></html>" in
  let txtBody := plainTextOf (htmlBody mail) in
  let m := gomail.NewMessage "UTF-8" in
  let m := gomail.SetHeaders (mailHeaders mail) m in
  let m := gomail.SetHeader "Date" [FormatDate lib date] m in
  let m := gomail.SetBody "text/plain" txtBody m in
  let m := gomail.AddAlternative "text/html" htmlMessage m in
  map_fold (λ name reader acc, gomail.EmbedReader name reader acc)
           m (embeddedFiles mail).

(** [SendMail] (lines 318-383).  The two log lines are not recorded. *)
Definition SendMail {C} {client : smtpClient C} (c : C) (mail : mailData)
    (date : Time) : Eff unit :=
  let m := mailMessage mail date in
  wrapErr (Mail c (Address.Address (from mail)))
          "failed to set the from address" ;;;
  wrapErr (Rcpt c (smtpTo mail)) "failed to set the to address" ;;;
  w <- wrapErr (Data c) "failed to add email message data" ;;
  wrapErr (Write w m) "failed to write the email message" ;;;
  wrapErr (Close w) "failed to close connection to the SMTP server" ;;;
  effRet tt.

(** [sendMailUsingConfigAdvanced] (lines 291-316). *)
Definition sendMailUsingConfigAdvanced (mail : mailData)
    (config : SMTPConfig.t) (enableComplianceFeatures : bool) : Eff unit :=
  if String.eqb (SMTPConfig.Server config) "" then effRet tt
  else
    conn <- ConnectToSMTPServer config ;;
    defer (Conn_Close conn)
      (let sec := SMTPConfig.ServerTimeout config in
       let ctx := contextWithTimeout contextBackground
                    (secondsDuration sec) in
       c <- NewSMTPClient ctx conn config ;;
       defer (Client_Quit c)
         (defer (Client_Close c)
            (SendMail c mail (timeNow net)))).

(** [SendMailWithEmbeddedFilesUsingConfig] (lines 268-284). *)
Definition SendMailWithEmbeddedFilesUsingConfig (to subject htmlBody : string)
    (embeddedFiles : gmap string Reader) (config : SMTPConfig.t)
    (enableComplianceFeatures : bool) (ccMail : string) : Eff unit :=
  let fromMail := {| Address.Name := SMTPConfig.FeedbackName config;
                     Address.Address := SMTPConfig.FeedbackEmail config |} in
  let replyTo := {| Address.Name := SMTPConfig.FeedbackName config;
                    Address.Address := SMTPConfig.ReplyToAddress config |} in
  let mail := {| mimeTo := to; smtpTo := to; from := fromMail; cc := ccMail;
                 replyTo := replyTo; subject := subject;
                 htmlBody := htmlBody; embeddedFiles := embeddedFiles;
                 mimeHeaders := ∅ |} in
  sendMailUsingConfigAdvanced mail config enableComplianceFeatures.

(** [SendMailUsingConfig] (lines 286-288); the nil map is empty. *)
Definition SendMailUsingConfig (to subject htmlBody : string)
    (config : SMTPConfig.t) (enableComplianceFeatures : bool)
    (ccMail : string) : Eff unit :=
  SendMailWithEmbeddedFilesUsingConfig to subject htmlBody ∅ config
    enableComplianceFeatures ccMail.

End mailservice.

(** ** Changing one answer of the network or one library function *)

Definition setHandshake (h : SelectOutcome) (net : Network) : Network :=
  {| dial := dial net; dialTLS := dialTLS net; handshake := h;
     hello := hello net; startTLS := startTLS net;
     serverInfo := serverInfo net; authExchange := authExchange net;
     mailFrom := mailFrom net; rcptTo := rcptTo net; data := data net;
     writeTo := writeTo net; closeData := closeData net;
     timeNow := timeNow net |}.

Definition setStartTLS (r : option GoError) (net : Network) : Network :=
  {| dial := dial net; dialTLS := dialTLS net; handshake := handshake net;
     hello := hello net; startTLS := r;
     serverInfo := serverInfo net; authExchange := authExchange net;
     mailFrom := mailFrom net; rcptTo := rcptTo net; data := data net;
     writeTo := writeTo net; closeData := closeData net;
     timeNow := timeNow net |}.

Definition setHtml2text (f : string -> string * option GoError) (lib : Libs)
  : Libs :=
  {| BEncodingEncode := BEncodingEncode lib;
     AddressString := AddressString lib;
     html2textFromString := f;
     FormatDate := FormatDate lib;
     plainAuthStart := plainAuthStart lib |}.

(** Which mechanism the chooser holds after [Start]. *)
Definition usesPlain (a : authChooser) : Prop :=
  exists identity username password host,
    Auth a = Some (PlainAuth identity username password host).

Definition usesLogin (a : authChooser) : Prop :=
  exists username password host,
    Auth a = Some (LoginAuth username password host).

(** What a caller can tell from a returned [error]: nil, or its text. *)
Definition errorText {A} (r : result A) : option string :=
  match r with
  | Ok _ => None
  | Err e => Some (Error e)
  end.

(** The messages the package wraps a failure with, by phase. *)
Definition phaseMessages : list string :=
  [ "unable to connect to the SMTP server through TLS";
    "unable to connect to the SMTP server";
    "unable to send hello message";
    "authentication failed";
    "failed to set the from address";
    "failed to set the to address";
    "failed to add email message data";
    "failed to write the email message";
    "failed to close connection to the SMTP server" ].

(** A result is nil, or an error wrapped with one of these messages. *)
Definition phaseWrapped {A} (r : result A) : Prop :=
  match r with
  | Ok _ => True
  | Err e => exists cause msg, e = errorsWrap cause msg /\ msg ∈ phaseMessages
  end.

(** ** Sample values *)

(** A server that accepts everything; the context is cancelled by the
    goroutine once the client is there. *)
Definition okNetwork : Network :=
  {| dial := λ _, None; dialTLS := λ _, None;
     handshake := CtxDone (Some contextCanceled);
     hello := λ _, None; startTLS := None;
     serverInfo := {| smtp.Name := "mail.example.com:587"; smtp.TLS := true;
                      smtp.Auth := ["LOGIN"; "PLAIN"] |};
     authExchange := None;
     mailFrom := λ _, None; rcptTo := λ _, None; data := None;
     writeTo := λ _, None; closeData := None;
     timeNow := 1700000000000 |}.

(** Stand-ins for the libraries: no word encoding, a bare address, a
    text conversion that always fails, and the checks of
    [smtp.PlainAuth]. *)
Definition sampleLibs : Libs :=
  {| BEncodingEncode := λ _ s, s;
     AddressString := λ a, "<" +:+ Address.Address a +:+ ">";
     html2textFromString := λ _, ("junk", Some (errorsNew "html2text: bad"));
     FormatDate := λ _, "Mon, 01 Jan 2024 00:00:00 +0000";
     plainAuthStart := λ identity username password host server,
       if negb (smtp.TLS server) then Err (errorsNew "unencrypted connection")
       else if negb (String.eqb (smtp.Name server) host)
            then Err (errorsNew "wrong host name")
       else Ok ("PLAIN", identity +:+ String "000" username
                         +:+ String "000" password) |}.

Definition sampleConfig (security server : string) (auth notify : bool)
  : SMTPConfig.t :=
  {| SMTPConfig.ConnectionSecurity := security;
     SMTPConfig.SkipServerCertificateVerification := false;
     SMTPConfig.Hostname := "chat.example.com";
     SMTPConfig.Server := server;
     SMTPConfig.Port := "587";
     SMTPConfig.ServerTimeout := 10;
     SMTPConfig.Username := "bot";
     SMTPConfig.Password := "secret";
     SMTPConfig.EnableSMTPAuth := auth;
     SMTPConfig.SendEmailNotifications := notify;
     SMTPConfig.FeedbackName := "Chat";
     SMTPConfig.FeedbackEmail := "chat@example.com";
     SMTPConfig.ReplyToAddress := "" |}.

Definition sampleMail : mailData :=
  {| mimeTo := "user@example.com"; smtpTo := "user@example.com";
     from := {| Address.Name := "Chat"; Address.Address := "chat@example.com" |};
     cc := "";
     replyTo := {| Address.Name := "Chat"; Address.Address := "" |};
     subject := "hello"; htmlBody := "<p>hi</p>";
     embeddedFiles := ∅; mimeHeaders := ∅ |}.

(** The server refuses the STARTTLS command; everything else succeeds. *)
Definition noStartTLSNetwork : Network :=
  setStartTLS (Some (errorsNew "502 5.5.1 command not implemented")) okNetwork.


(** ** What a run adds to the record, and what it is wrapped with *)

(** The actions that hand a mail over: envelope, data command, body. *)
Definition isTransmission (a : Action) : bool :=
  match a with
  | ActMail _ | ActRcpt _ | ActData | ActWrite _ | ActCloseData => true
  | _ => false
  end.

(** A computation only ever adds actions at the end of the record, and
    every action it adds satisfies [P]. *)
Definition appends {A} (P : Action -> Prop) (m : Eff A) : Prop :=
  forall log, exists added,
    fst (m log) = (log ++ added)%list /\ Forall P added.

(** The actions client set-up may take, each under the switch of the
    configuration that asks for it (mail.go, lines 181-218). *)
Definition setupAction (hostname : string) (info : SmtpConnectionInfo.t)
    (a : Action) : Prop :=
  match a with
  | ActNewClient host =>
      host = SmtpConnectionInfo.SmtpServerName info +:+ ":"
             +:+ SmtpConnectionInfo.SmtpPort info
  | ActHello localName => hostname <> "" /\ localName = hostname
  | ActStartTLS skip name =>
      SmtpConnectionInfo.ConnectionSecurity info = connSecurityStarttls
      /\ skip = SmtpConnectionInfo.SkipCertVerification info
      /\ name = SmtpConnectionInfo.SmtpServerName info
  | ActAuth | ActClientQuit => SmtpConnectionInfo.Auth info = true
  | _ => False
  end.

(** A result is nil, or an error wrapped with one of [msgs]. *)
Definition wrappedWith {A} (msgs : list string) (r : result A) : Prop :=
  match r with
  | Ok _ => True
  | Err e => exists cause msg, e = errorsWrap cause msg /\ msg ∈ msgs
  end.

(** The messages of connection and client set-up, and those of
    [SendMail]. *)
Definition setupMessages : list string :=
  [ "unable to connect to the SMTP server through TLS";
    "unable to connect to the SMTP server";
    "unable to send hello message";
    "authentication failed" ].

Definition sendMessages : list string :=
  [ "failed to set the from address";
    "failed to set the to address";
    "failed to add email message data";
    "failed to write the email message";
    "failed to close connection to the SMTP server" ].

(** What [TestConnection] can return besides nil. *)
Definition selfTestError (e : GoError) : Prop :=
  e = errorsNew "SendEmailNotifications is not true"
  \/ exists cause msg,
       e = errorsWrap (errorsWrap cause msg) "unable to connect"
       /\ msg ∈ setupMessages.

(** The same mail with other custom headers. *)
Definition withMimeHeaders (h : gmap string string) (mail : mailData)
  : mailData :=
  {| mimeTo := mimeTo mail; smtpTo := smtpTo mail; from := from mail;
     cc := cc mail; replyTo := replyTo mail; subject := subject mail;
     htmlBody := htmlBody mail; embeddedFiles := embeddedFiles mail;
     mimeHeaders := h |}.

(** A server that accepts the connection, the greeting and every
    command of the session. *)
Definition acceptsAll (net : Network) : Prop :=
  (forall address, dial net address = None)
  /\ (forall address, dialTLS net address = None)
  /\ (handshake net = CtxDone None
      \/ exists e, handshake net = CtxDone (Some e)
                   /\ Error e = "context canceled")
  /\ (forall localName, hello net localName = None)
  /\ (forall from, mailFrom net from = None)
  /\ (forall to, rcptTo net to = None)
  /\ data net = None
  /\ (forall m, writeTo net m = None)
  /\ closeData net = None.

(** The connection information [NewSMTPClient] builds (lines 227-237). *)
Definition connectionInfoOf (config : SMTPConfig.t) : SmtpConnectionInfo.t :=
  {| SmtpConnectionInfo.ConnectionSecurity :=
       SMTPConfig.ConnectionSecurity config;
     SmtpConnectionInfo.SkipCertVerification :=
       SMTPConfig.SkipServerCertificateVerification config;
     SmtpConnectionInfo.SmtpServerName := SMTPConfig.Server config;
     SmtpConnectionInfo.SmtpServerHost := SMTPConfig.Server config;
     SmtpConnectionInfo.SmtpPort := SMTPConfig.Port config;
     SmtpConnectionInfo.SmtpServerTimeout := SMTPConfig.ServerTimeout config;
     SmtpConnectionInfo.Auth := SMTPConfig.EnableSMTPAuth config;
     SmtpConnectionInfo.SmtpUsername := SMTPConfig.Username config;
     SmtpConnectionInfo.SmtpPassword := SMTPConfig.Password config |}.

(** The network lets every dial through. *)
Definition dialAccepted (net : Network) : Prop :=
  (forall address, dial net address = None)
  /\ (forall address, dialTLS net address = None).

(** The server accepts the connection, the hello and, where the
    configuration enables authentication, the chosen mechanism and its
    exchange. *)
Definition setupAccepted (net : Network) (lib : Libs)
    (config : SMTPConfig.t) : Prop :=
  dialAccepted net
  /\ (forall localName, hello net localName = None)
  /\ (SMTPConfig.EnableSMTPAuth config = true ->
      authExchange net = None
      /\ exists r,
           snd (authChooser_Start lib
                  {| Auth := None; connectionInfo := connectionInfoOf config |}
                  (serverInfo net)) = Ok r).

(** The actions of a client set-up that goes through. *)
Definition setupActions (config : SMTPConfig.t) : list Action :=
  [ActNewClient (SMTPConfig.Server config +:+ ":" +:+ SMTPConfig.Port config)]
  ++ (if String.eqb (SMTPConfig.Hostname config) "" then []
      else [ActHello (SMTPConfig.Hostname config)])
  ++ (if String.eqb (SMTPConfig.ConnectionSecurity config)
                    connSecurityStarttls
      then [ActStartTLS (SMTPConfig.SkipServerCertificateVerification config)
              (SMTPConfig.Server config)]
      else [])
  ++ (if SMTPConfig.EnableSMTPAuth config then [ActAuth] else []).

(** A configuration with another timeout. *)
Definition withServerTimeout (sec : Z) (config : SMTPConfig.t)
  : SMTPConfig.t :=
  {| SMTPConfig.ConnectionSecurity := SMTPConfig.ConnectionSecurity config;
     SMTPConfig.SkipServerCertificateVerification :=
       SMTPConfig.SkipServerCertificateVerification config;
     SMTPConfig.Hostname := SMTPConfig.Hostname config;
     SMTPConfig.Server := SMTPConfig.Server config;
     SMTPConfig.Port := SMTPConfig.Port config;
     SMTPConfig.ServerTimeout := sec;
     SMTPConfig.Username := SMTPConfig.Username config;
     SMTPConfig.Password := SMTPConfig.Password config;
     SMTPConfig.EnableSMTPAuth := SMTPConfig.EnableSMTPAuth config;
     SMTPConfig.SendEmailNotifications :=
       SMTPConfig.SendEmailNotifications config;
     SMTPConfig.FeedbackName := SMTPConfig.FeedbackName config;
     SMTPConfig.FeedbackEmail := SMTPConfig.FeedbackEmail config;
     SMTPConfig.ReplyToAddress := SMTPConfig.ReplyToAddress config |}.

(** The dial [ConnectToSMTPServer] makes for a configuration. *)
Definition dialAction (config : SMTPConfig.t) : Action :=
  let address := SMTPConfig.Server config +:+ ":" +:+ SMTPConfig.Port config in
  if String.eqb (SMTPConfig.ConnectionSecurity config) connSecurityTls
  then ActDialTLS address (SMTPConfig.ServerTimeout config)
         (SMTPConfig.SkipServerCertificateVerification config)
         (SMTPConfig.Server config)
  else ActDial address (SMTPConfig.ServerTimeout config).

(** A server that refuses STARTTLS, lists only LOGIN and is reported to
    the mechanism as unencrypted. *)
Definition clearLoginNetwork : Network :=
  {| dial := λ _, None; dialTLS := λ _, None;
     handshake := CtxDone (Some contextCanceled);
     hello := λ _, None;
     startTLS := Some (errorsNew "502 5.5.1 command not implemented");
     serverInfo := {| smtp.Name := "mail.example.com:587"; smtp.TLS := false;
                      smtp.Auth := ["LOGIN"] |};
     authExchange := None;
     mailFrom := λ _, None; rcptTo := λ _, None; data := None;
     writeTo := λ _, None; closeData := None;
     timeNow := 1700000000000 |}.

(* ===================================================================== *)
(** * Part III: properties                                               *)
(* ===================================================================== *)

Import Bookmark.

(** ** The bookmark validator *)

Section ValidatorFacts.

Context (IsValidId IsValidHTTPURL : string -> bool).

Lemma isEmpty_true s : isEmpty s = true <-> s = "".
Proof. unfold isEmpty. apply String.eqb_eq. Qed.

Lemma isEmpty_false s : isEmpty s = false <-> s <> "".
Proof. unfold isEmpty. apply String.eqb_neq. Qed.

Lemma missingId_false s :
  missingId IsValidId s = false <-> presentId IsValidId s.
Proof.
  unfold missingId, presentId.
  rewrite orb_false_iff, negb_false_iff, isEmpty_false. tauto.
Qed.

Lemma missingURL_false s :
  missingURL IsValidHTTPURL s = false <-> presentURL IsValidHTTPURL s.
Proof.
  unfold missingURL, presentURL.
  rewrite orb_false_iff, negb_false_iff, isEmpty_false. tauto.
Qed.

Lemma malformedOptId_false s :
  malformedOptId IsValidId s = false <-> optionalId IsValidId s.
Proof.
  unfold malformedOptId, optionalId.
  rewrite andb_false_iff, !negb_false_iff, isEmpty_true. tauto.
Qed.

Lemma malformedOptURL_false s :
  malformedOptURL IsValidHTTPURL s = false <-> optionalURL IsValidHTTPURL s.
Proof.
  unfold malformedOptURL, optionalURL.
  rewrite andb_false_iff, !negb_false_iff, isEmpty_true. tauto.
Qed.

Lemma link_is_not_file : ChannelBookmarkLink <> ChannelBookmarkFile.
Proof. discriminate. Qed.

(** The validator accepts exactly the records that have the common
    fields, the field their type tag requires, and optional fields that
    are empty or well-formed. *)
Lemma IsValid_None_iff o :
  IsValid IsValidId IsValidHTTPURL o = None <->
  commonFields IsValidId o /\ typeFields IsValidId IsValidHTTPURL o
  /\ optionalFields IsValidId IsValidHTTPURL o.
Proof.
  unfold IsValid, commonFields, typeFields, optionalFields.
  rewrite <- !missingId_false, <- !missingURL_false,
          <- !malformedOptId_false, <- !malformedOptURL_false,
          <- !isEmpty_false.
  rewrite <- !(Z.eqb_neq _ 0).
  destruct (missingId IsValidId (Id o)); [intuition discriminate|].
  destruct (missingId IsValidId (OwnerId o)); [intuition discriminate|].
  destruct (missingId IsValidId (ChannelId o)); [intuition discriminate|].
  destruct (isEmpty (DisplayName o)); [intuition discriminate|].
  destruct (String.eqb_spec (Type_ o) ChannelBookmarkLink) as [Hl|Hl];
    destruct (String.eqb_spec (Type_ o) ChannelBookmarkFile) as [Hf|Hf];
    simpl.
  - exfalso. apply link_is_not_file. congruence.
  - destruct (missingURL IsValidHTTPURL (LinkUrl o));
      [intuition discriminate|].
    destruct (malformedOptURL IsValidHTTPURL (ImageUrl o));
      [intuition discriminate|].
    destruct (malformedOptId IsValidId (OriginalId o));
      [intuition discriminate|].
    destruct (malformedOptId IsValidId (ParentId o));
      [intuition discriminate|].
    destruct (CreateAt o =? 0); [intuition discriminate|].
    destruct (UpdateAt o =? 0); [intuition discriminate|].
    intuition.
  - destruct (malformedOptURL IsValidHTTPURL (ImageUrl o));
      [intuition discriminate|].
    destruct (missingId IsValidId (FileId o));
      [intuition discriminate|].
    destruct (malformedOptId IsValidId (OriginalId o));
      [intuition discriminate|].
    destruct (malformedOptId IsValidId (ParentId o));
      [intuition discriminate|].
    destruct (CreateAt o =? 0); [intuition discriminate|].
    destruct (UpdateAt o =? 0); [intuition discriminate|].
    intuition.
  - intuition discriminate.
Qed.

Lemma linkRecord_valid o :
  linkRecord IsValidId IsValidHTTPURL o ->
  optionalFields IsValidId IsValidHTTPURL o ->
  IsValid IsValidId IsValidHTTPURL o = None.
Proof.
  intros (Hcommon & Htype & Hurl) Hopt. apply IsValid_None_iff.
  split; [exact Hcommon|]. split; [|exact Hopt]. left. by split.
Qed.

Lemma lacksField_invalid o :
  lacksField IsValidId IsValidHTTPURL o ->
  IsValid IsValidId IsValidHTTPURL o <> None.
Proof.
  intros Hlacks Hvalid.
  apply IsValid_None_iff in Hvalid
    as ((Hid & Howner & Hchannel & Hname & Hcreate & Hupdate) & Htype & _).
  destruct Hlacks as [H|[H|[H|[H|[H|[H|[[Hl Hf]|[[Hl H]|[Hf H]]]]]]]]];
    try done.
  - by destruct Htype as [[Hlink _]|[Hfile _]].
  - destruct Htype as [[_ Hurl]|[Hfile _]]; [done|].
    apply link_is_not_file. congruence.
  - destruct Htype as [[Hlink _]|[_ Hfid]]; [|done].
    apply link_is_not_file. congruence.
Qed.

Lemma linkRecord_valid_iff o :
  linkRecord IsValidId IsValidHTTPURL o ->
  IsValid IsValidId IsValidHTTPURL o = None
  <-> optionalFields IsValidId IsValidHTTPURL o.
Proof.
  intros Hlink. split.
  - intros Hvalid. by apply IsValid_None_iff in Hvalid as (_ & _ & Hopt).
  - by apply linkRecord_valid.
Qed.

(** C1 (as amended): a link record that has a non-empty well-formed
    identifier, owner and channel, a display name, non-zero timestamps and
    a well-formed URL is valid exactly when its optional image URL,
    original id and parent id are each empty or well-formed; a record
    lacking an identifier, the owner, the channel, the display name, a
    timestamp, a type tag that is link or file, the URL of a link or the
    file reference of a file fails validation. *)
Theorem IsValid_link_record_and_missing_fields (o : ChannelBookmark) :
  (linkRecord IsValidId IsValidHTTPURL o ->
   (IsValid IsValidId IsValidHTTPURL o = None
    <-> optionalFields IsValidId IsValidHTTPURL o))
  /\ (lacksField IsValidId IsValidHTTPURL o ->
      IsValid IsValidId IsValidHTTPURL o <> None).
Proof. split; [apply linkRecord_valid_iff | apply lacksField_invalid]. Qed.

End ValidatorFacts.

(** The model agrees with every row of [TestChannelBookmarkIsValid]. *)
Lemma TestChannelBookmarkIsValid_rows : forallb rowPasses testCases = true.
Proof. vm_compute. reflexivity. Qed.

Lemma validLinkRow_is_linkRecord :
  linkRecord sampleIsValidId sampleIsValidHTTPURL validLinkRow
  /\ optionalFields sampleIsValidId sampleIsValidHTTPURL validLinkRow.
Proof.
  unfold linkRecord, commonFields, optionalFields, presentId, presentURL,
    optionalId, optionalURL.
  repeat split; try (vm_compute; discriminate); try reflexivity;
    left; reflexivity.
Qed.

Lemma badImageRow_is_linkRecord :
  linkRecord sampleIsValidId sampleIsValidHTTPURL badImageRow.
Proof.
  unfold linkRecord, commonFields, presentId, presentURL.
  repeat split; try (vm_compute; discriminate); reflexivity.
Qed.

(** C1, counterexample: row 15 of the test table is a link record with
    every listed field, and the validator rejects it for its image URL. *)
Lemma IsValid_link_record_bad_image_url :
  linkRecord sampleIsValidId sampleIsValidHTTPURL badImageRow
  /\ IsValid sampleIsValidId sampleIsValidHTTPURL badImageRow
     = Some InvalidImageUrl.
Proof. split; [apply badImageRow_is_linkRecord | reflexivity]. Qed.

Lemma IsValid_link_record_and_missing_fields_witness :
  IsValid sampleIsValidId sampleIsValidHTTPURL validLinkRow = None
  /\ IsValid sampleIsValidId sampleIsValidHTTPURL fileMissingRow <> None
  /\ IsValid sampleIsValidId sampleIsValidHTTPURL typeMissingRow <> None.
Proof.
  split; [|split].
  - apply (proj1 (IsValid_link_record_and_missing_fields
                    sampleIsValidId sampleIsValidHTTPURL validLinkRow)).
    + apply validLinkRow_is_linkRecord.
    + apply validLinkRow_is_linkRecord.
  - apply (proj2 (IsValid_link_record_and_missing_fields
                    sampleIsValidId sampleIsValidHTTPURL fileMissingRow)).
    unfold lacksField. do 8 right. split; [reflexivity|].
    intros [Hne _]. apply Hne. reflexivity.
  - apply (proj2 (IsValid_link_record_and_missing_fields
                    sampleIsValidId sampleIsValidHTTPURL typeMissingRow)).
    unfold lacksField. do 6 right. left. split; discriminate.
Defined.

(** ** Timestamps *)

(** C5: on a fresh record, and with a clock that does not read zero,
    [PreSave] makes both timestamps non-zero and changes no other field. *)
Theorem PreSave_fresh (o : ChannelBookmark) (now : Z) :
  CreateAt o = 0 -> UpdateAt o = 0 -> now <> 0 ->
  CreateAt (PreSave now o) <> 0 /\ UpdateAt (PreSave now o) <> 0
  /\ Id (PreSave now o) = Id o
  /\ DeleteAt (PreSave now o) = DeleteAt o
  /\ ChannelId (PreSave now o) = ChannelId o
  /\ OwnerId (PreSave now o) = OwnerId o
  /\ FileId (PreSave now o) = FileId o
  /\ DisplayName (PreSave now o) = DisplayName o
  /\ SortOrder (PreSave now o) = SortOrder o
  /\ LinkUrl (PreSave now o) = LinkUrl o
  /\ ImageUrl (PreSave now o) = ImageUrl o
  /\ Emoji (PreSave now o) = Emoji o
  /\ Type_ (PreSave now o) = Type_ o
  /\ OriginalId (PreSave now o) = OriginalId o
  /\ ParentId (PreSave now o) = ParentId o.
Proof. intros _ _ Hnow. simpl. repeat split; assumption. Qed.

Lemma PreSave_fresh_witness :
  CreateAt (PreSave 1700000000000 freshBookmark) <> 0
  /\ UpdateAt (PreSave 1700000000000 freshBookmark) <> 0
  /\ Id (PreSave 1700000000000 freshBookmark) = id1.
Proof.
  pose proof (PreSave_fresh freshBookmark 1700000000000 eq_refl eq_refl)
    as H.
  destruct H as (Hc & Hu & Hid & _); [discriminate|].
  split; [exact Hc|]. split; [exact Hu|exact Hid].
Defined.

(** C3: after [PreSave], a [PreUpdate] leaves the update timestamp
    strictly greater than it was, whatever the clock reads at either
    call, and the creation timestamp as it was. *)
Theorem PreUpdate_after_PreSave (o : ChannelBookmark) (saved updated : Z) :
  UpdateAt (PreSave saved o) < UpdateAt (PreUpdate updated (PreSave saved o))
  /\ CreateAt (PreUpdate updated (PreSave saved o))
     = CreateAt (PreSave saved o).
Proof. simpl. split; [lia|reflexivity]. Qed.

(** Save and update within the same millisecond. *)
Lemma PreUpdate_after_PreSave_witness :
  UpdateAt (PreSave 1700000000000 freshBookmark)
  < UpdateAt (PreUpdate 1700000000000 (PreSave 1700000000000 freshBookmark))
  /\ CreateAt (PreUpdate 1700000000000 (PreSave 1700000000000 freshBookmark))
     = CreateAt (PreSave 1700000000000 freshBookmark).
Proof.
  apply (PreUpdate_after_PreSave freshBookmark 1700000000000 1700000000000).
Defined.

(** [PreUpdate] advances the update timestamp of any record. *)
Lemma PreUpdate_advances (o : ChannelBookmark) (now : Z) :
  UpdateAt o < UpdateAt (PreUpdate now o).
Proof. simpl. lia. Qed.

(** When the clock has moved past the stored value, the new value is the
    clock reading. *)
Lemma PreUpdate_reads_clock (o : ChannelBookmark) (now : Z) :
  UpdateAt o < now -> UpdateAt (PreUpdate now o) = now.
Proof. intros Hlater. simpl. lia. Qed.

(** The steps of [TestChannelBookmarkPreUpdate]: after [PreSave] the
    update timestamp is set, and a [PreUpdate] five milliseconds later
    makes it greater. *)
Example TestChannelBookmarkPreUpdate_steps :
  let bookmark := PreSave 1700000000000 freshBookmark in
  UpdateAt bookmark <> 0
  /\ UpdateAt bookmark < UpdateAt (PreUpdate 1700000000005 bookmark).
Proof. split; [discriminate|reflexivity]. Qed.

(** [PreUpdate] touches the update timestamp only. *)
Lemma PreUpdate_frame (o : ChannelBookmark) (now : Z) :
  PreUpdate now o
  = {| Id := Id o; CreateAt := CreateAt o;
       UpdateAt := UpdateAt (PreUpdate now o);
       DeleteAt := DeleteAt o; ChannelId := ChannelId o;
       OwnerId := OwnerId o; FileId := FileId o;
       DisplayName := DisplayName o; SortOrder := SortOrder o;
       LinkUrl := LinkUrl o; ImageUrl := ImageUrl o; Emoji := Emoji o;
       Type_ := Type_ o; OriginalId := OriginalId o;
       ParentId := ParentId o |}.
Proof. reflexivity. Qed.

(** ** The fingerprint *)

Lemma pretty_N_char_notDot x : notDot (pretty_N_char x) = true.
Proof.
  unfold pretty_N_char.
  repeat (match goal with
          | |- context [match ?y with _ => _ end] => destruct y
          end);
    reflexivity.
Qed.

Lemma pretty_N_go_dotFree x : forall s, dotFree s -> dotFree (pretty_N_go x s).
Proof.
  induction (N.lt_wf_0 x) as [x _ IH]. intros s Hs.
  destruct (decide (x = 0)%N) as [->|Hx].
  - rewrite pretty_N_go_0. exact Hs.
  - rewrite pretty_N_go_step by lia.
    apply IH.
    + apply N.div_lt; lia.
    + unfold dotFree. simpl. rewrite pretty_N_char_notDot. exact Hs.
Qed.

Lemma pretty_N_dotFree (x : N) : dotFree (pretty x).
Proof.
  unfold pretty, pretty_N. destruct (decide (x = 0)%N).
  - reflexivity.
  - apply pretty_N_go_dotFree. reflexivity.
Qed.

(** The decimal rendering of a timestamp has no dot. *)
Lemma pretty_Z_dotFree (z : Z) : dotFree (pretty z).
Proof.
  destruct z as [|p|p]; unfold pretty, pretty_Z.
  - reflexivity.
  - apply pretty_N_dotFree.
  - unfold dotFree. change ("-" +:+ pretty p) with (String "-" (pretty p)).
    simpl. apply pretty_N_dotFree.
Qed.

Lemma dot_not_dotFree a c : ~ dotFree (a +:+ "." +:+ c).
Proof.
  unfold dotFree. induction a as [|z a IH]; intros H.
  - change ("" +:+ "." +:+ c) with (String "." c) in H. discriminate.
  - change (String z a +:+ "." +:+ c)
      with (String z (a +:+ "." +:+ c)) in H.
    simpl in H. apply andb_true_iff in H as [_ H]. auto.
Qed.

(** A string splits at its last dot in one way only. *)
Lemma split_at_last_dot a : forall b c d,
  dotFree c -> dotFree d ->
  a +:+ "." +:+ c = b +:+ "." +:+ d -> a = b /\ c = d.
Proof.
  induction a as [|x a IH]; intros [|y b] c d Hc Hd Heq.
  - change ("" +:+ "." +:+ c) with (String "." c) in Heq.
    change ("" +:+ "." +:+ d) with (String "." d) in Heq.
    injection Heq as ->. done.
  - exfalso.
    change ("" +:+ "." +:+ c) with (String "." c) in Heq.
    change (String y b +:+ "." +:+ d)
      with (String y (b +:+ "." +:+ d)) in Heq.
    injection Heq as <- ->. by apply dot_not_dotFree in Hc.
  - exfalso.
    change ("" +:+ "." +:+ d) with (String "." d) in Heq.
    change (String x a +:+ "." +:+ c)
      with (String x (a +:+ "." +:+ c)) in Heq.
    injection Heq as -> <-. by apply dot_not_dotFree in Hd.
  - change (String x a +:+ "." +:+ c)
      with (String x (a +:+ "." +:+ c)) in Heq.
    change (String y b +:+ "." +:+ d)
      with (String y (b +:+ "." +:+ d)) in Heq.
    injection Heq as -> Heq.
    destruct (IH _ _ _ Hc Hd Heq) as [-> ->]. done.
Qed.

(** C4: two bookmarks have the same fingerprint exactly when they have
    the same identifier and the same update timestamp. *)
Theorem Etag_eq_iff (CurrentVersion : string) (o1 o2 : ChannelBookmark) :
  Etag CurrentVersion o1 = Etag CurrentVersion o2
  <-> Id o1 = Id o2 /\ UpdateAt o1 = UpdateAt o2.
Proof.
  unfold Etag. split.
  - intros Heq.
    apply (inj (String.app CurrentVersion)) in Heq.
    apply (inj (String.app ".")) in Heq.
    apply split_at_last_dot in Heq as [Hid Hup];
      [|apply pretty_Z_dotFree..].
    split; [exact Hid|]. by apply (inj pretty) in Hup.
  - intros [-> ->]. reflexivity.
Qed.

(** [TestChannelBookmarkEtag], "different update at". *)
Example Etag_different_update_at :
  Etag "9.5.0" (PreUpdate 2 freshBookmark)
  <> Etag "9.5.0" (PreUpdate 3 freshBookmark).
Proof. vm_compute. discriminate. Qed.

(** ** Authentication *)

Section AuthFacts.

Context (lib : Libs).

Lemma loginAuth_Start_unencrypted username password host server :
  smtp.TLS server = false ->
  loginAuth_Start username password host server
  = Err (errorsNew "unencrypted connection").
Proof. intros H. unfold loginAuth_Start. rewrite H. reflexivity. Qed.

Lemma loginAuth_Start_wrong_host username password host server :
  smtp.TLS server = true -> smtp.Name server <> host ->
  loginAuth_Start username password host server
  = Err (errorsNew "wrong host name").
Proof.
  intros Htls Hname. unfold loginAuth_Start. rewrite Htls. simpl.
  apply String.eqb_neq in Hname. rewrite Hname. reflexivity.
Qed.

Lemma loginAuth_Start_ok username password host server :
  smtp.TLS server = true -> smtp.Name server = host ->
  loginAuth_Start username password host server = Ok ("LOGIN", "").
Proof.
  intros Htls Hname. unfold loginAuth_Start. rewrite Htls. simpl.
  apply String.eqb_eq in Hname. rewrite Hname. reflexivity.
Qed.

(** C6: [loginAuth.Start] returns an error when the server reports no
    TLS or a name other than the expected host; when the session is
    encrypted and the names agree it succeeds and announces LOGIN. *)
Theorem loginAuth_Start_spec (username password host : string)
    (server : smtp.ServerInfo) :
  (smtp.TLS server = false \/ smtp.Name server <> host ->
   exists e, loginAuth_Start username password host server = Err e)
  /\ (smtp.TLS server = true /\ smtp.Name server = host ->
      loginAuth_Start username password host server = Ok ("LOGIN", "")).
Proof.
  split.
  - intros [Htls|Hname].
    + eexists. by apply loginAuth_Start_unencrypted.
    + destruct (smtp.TLS server) eqn:Htls.
      * eexists. by apply loginAuth_Start_wrong_host.
      * eexists. by apply loginAuth_Start_unencrypted.
  - intros [Htls Hname]. by apply loginAuth_Start_ok.
Qed.

Lemma rangeServerAuth_PLAIN methods current plain :
  "PLAIN" ∈ methods -> rangeServerAuth methods current plain = plain.
Proof.
  induction methods as [|method rest IH]; intros Hin.
  - by apply not_elem_of_nil in Hin.
  - simpl. destruct (String.eqb_spec method "PLAIN") as [->|Hne]; [done|].
    apply IH. apply elem_of_cons in Hin as [Heq|Hin]; [congruence|done].
Qed.

Lemma rangeServerAuth_no_PLAIN methods current plain :
  "PLAIN" ∉ methods -> rangeServerAuth methods current plain = current.
Proof.
  induction methods as [|method rest IH]; intros Hnin; [done|].
  simpl. apply not_elem_of_cons in Hnin as [Hne Hnin].
  destruct (String.eqb_spec method "PLAIN") as [->|_]; [done|].
  by apply IH.
Qed.

(** C7: after [authChooser.Start] the chooser holds PLAIN authentication
    exactly when the server lists "PLAIN" among its methods and the LOGIN
    exchange exactly when it does not; what [Start] returns is what the
    chosen mechanism's [Start] returns. *)
Theorem authChooser_Start_selects (a : authChooser)
    (server : smtp.ServerInfo) :
  let a' := fst (authChooser_Start lib a server) in
  let info := connectionInfo a in
  let smtpAddress := SmtpConnectionInfo.SmtpServerName info +:+ ":"
                     +:+ SmtpConnectionInfo.SmtpPort info in
  (usesPlain a' <-> "PLAIN" ∈ smtp.Auth server)
  /\ (usesLogin a' <-> "PLAIN" ∉ smtp.Auth server)
  /\ (exists auth, Auth a' = Some auth
        /\ snd (authChooser_Start lib a server) = Auth_Start lib auth server
        /\ auth = if decide ("PLAIN" ∈ smtp.Auth server)
                  then PlainAuth "" (SmtpConnectionInfo.SmtpUsername info)
                         (SmtpConnectionInfo.SmtpPassword info) smtpAddress
                  else LoginAuth (SmtpConnectionInfo.SmtpUsername info)
                         (SmtpConnectionInfo.SmtpPassword info) smtpAddress).
Proof.
  unfold authChooser_Start, usesPlain, usesLogin. simpl.
  destruct (decide ("PLAIN" ∈ smtp.Auth server)) as [Hin|Hnin].
  - rewrite (rangeServerAuth_PLAIN _ _ _ Hin). split; [|split].
    + split; [done|]. intros _. by do 4 eexists.
    + split; [|done]. intros (? & ? & ? & [=]).
    + eexists. done.
  - rewrite (rangeServerAuth_no_PLAIN _ _ _ Hnin). split; [|split].
    + split; [|done]. intros (? & ? & ? & ? & [=]).
    + split; [done|]. intros _. by do 3 eexists.
    + eexists. done.
Qed.

End AuthFacts.

Lemma loginAuth_Start_spec_witness :
  (exists e,
     loginAuth_Start "bot" "secret" "mail.example.com:587"
       {| smtp.Name := "mail.example.com:587"; smtp.TLS := false;
          smtp.Auth := ["LOGIN"] |} = Err e)
  /\ loginAuth_Start "bot" "secret" "mail.example.com:587"
       (serverInfo okNetwork) = Ok ("LOGIN", "").
Proof.
  split.
  - apply (proj1 (loginAuth_Start_spec "bot" "secret" "mail.example.com:587"
                    {| smtp.Name := "mail.example.com:587";
                       smtp.TLS := false; smtp.Auth := ["LOGIN"] |})).
    left. reflexivity.
  - apply (proj2 (loginAuth_Start_spec "bot" "secret" "mail.example.com:587"
                    (serverInfo okNetwork))).
    split; reflexivity.
Defined.

(** The matching is exact: a server that lists [plain] in lower case gets
    the LOGIN exchange. *)
Example authChooser_Start_is_case_sensitive :
  Auth (fst (authChooser_Start sampleLibs
               {| Auth := None;
                  connectionInfo :=
                    {| SmtpConnectionInfo.SmtpUsername := "bot";
                       SmtpConnectionInfo.SmtpPassword := "secret";
                       SmtpConnectionInfo.SmtpServerName := "mail.example.com";
                       SmtpConnectionInfo.SmtpServerHost := "mail.example.com";
                       SmtpConnectionInfo.SmtpPort := "587";
                       SmtpConnectionInfo.SmtpServerTimeout := 10;
                       SmtpConnectionInfo.SkipCertVerification := false;
                       SmtpConnectionInfo.ConnectionSecurity := "TLS";
                       SmtpConnectionInfo.Auth := true |} |}
               {| smtp.Name := "mail.example.com:587"; smtp.TLS := true;
                  smtp.Auth := ["plain"] |}))
  = Some (LoginAuth "bot" "secret" "mail.example.com:587").
Proof. reflexivity. Qed.

(** ** The self-test and the send path *)

Section SetupAccepted.
Context (net : Network) (lib : Libs).

(** The dial is recorded whatever it returns, and what it returns does
    not depend on the record so far. *)
Lemma ConnectToSMTPServer_result config log :
  ConnectToSMTPServer net config log
  = ((log ++ [dialAction config])%list,
     snd (ConnectToSMTPServer net config [])).
Proof.
  unfold ConnectToSMTPServer, ConnectToSMTPServerAdvanced, dialAction,
    wrapErr, perform.
  cbn -[String.eqb secondsDuration].
  destruct (String.eqb _ _); simpl.
  - by destruct (dialAnswer _ _ _).
  - by destruct (dialAnswer _ _ _).
Qed.

Lemma ConnectToSMTPServer_setHandshake h config log :
  ConnectToSMTPServer (setHandshake h net) config log
  = ConnectToSMTPServer net config log.
Proof. reflexivity. Qed.

(** With a timeout that is positive as a duration, a network that lets
    every dial through gives a connection. *)
Lemma ConnectToSMTPServer_accepted config :
  dialAccepted net ->
  0 < secondsDuration (SMTPConfig.ServerTimeout config) ->
  exists conn, snd (ConnectToSMTPServer net config []) = Ok conn.
Proof.
  intros [Hdial HdialTLS] Hlive.
  unfold ConnectToSMTPServer, ConnectToSMTPServerAdvanced, wrapErr, perform,
    dialAnswer.
  cbn -[String.eqb secondsDuration].
  assert ((secondsDuration (SMTPConfig.ServerTimeout config) <? 0) = false)
    as -> by lia.
  destruct (String.eqb _ _); simpl.
  - rewrite HdialTLS. by eexists.
  - rewrite Hdial. by eexists.
Qed.

Lemma contextWithTimeout_live d :
  0 < d -> contextWithTimeout contextBackground d = None.
Proof.
  intros Hd. unfold contextWithTimeout, contextBackground.
  by assert ((d <=? 0) = false) as -> by lia.
Qed.

(** A set-up whose [select] lets the client through, and whose hello and
    authentication are accepted, takes exactly [setupActions]. *)
Lemma NewSMTPClient_passes ctx conn config log :
  (selected ctx (handshake net) = CtxDone None
   \/ exists e, selected ctx (handshake net) = CtxDone (Some e)
                /\ Error e = "context canceled") ->
  (forall localName, hello net localName = None) ->
  (SMTPConfig.EnableSMTPAuth config = true ->
   authExchange net = None
   /\ exists r,
        snd (authChooser_Start lib
               {| Auth := None; connectionInfo := connectionInfoOf config |}
               (serverInfo net)) = Ok r) ->
  NewSMTPClient net lib ctx conn config log
  = ((log ++ setupActions config)%list,
     Ok {| clientConn := conn;
           serverName := SMTPConfig.Server config +:+ ":"
                         +:+ SMTPConfig.Port config |}).
Proof.
  intros Hsel Hhello Hauth.
  unfold NewSMTPClient. fold (connectionInfoOf config).
  unfold NewSMTPClientAdvanced, setupActions, effBind, wrapErr, perform,
    ignoreErr, effFail, effRet, Client_Hello, Client_StartTLS, Client_Auth.
  cbn [connectionInfoOf SmtpConnectionInfo.Auth
       SmtpConnectionInfo.ConnectionSecurity
       SmtpConnectionInfo.SmtpServerName SmtpConnectionInfo.SmtpPort
       SmtpConnectionInfo.SkipCertVerification].
  fold (connectionInfoOf config).
  destruct Hsel as [Hs|(e & Hs & He)]; rewrite Hs;
    [|rewrite He, String.eqb_refl]; cbn -[String.eqb authChooser_Start];
    (destruct (String.eqb (SMTPConfig.Hostname config) "");
     cbn -[String.eqb authChooser_Start]; rewrite ?Hhello;
     cbn -[String.eqb authChooser_Start];
     destruct (String.eqb (SMTPConfig.ConnectionSecurity config) _);
     cbn -[String.eqb authChooser_Start];
     (destruct (SMTPConfig.EnableSMTPAuth config);
      [destruct (Hauth eq_refl) as (Hex & r & Hr); rewrite Hr, Hex|];
      cbn -[String.eqb authChooser_Start];
      by rewrite <- ?app_assoc, ?app_nil_r)).
Qed.

(** The self-test with notifications enabled, by the outcome of its two
    steps. *)
Lemma TestConnection_enabled config log :
  SMTPConfig.SendEmailNotifications config = true ->
  TestConnection net lib config log
  = match ConnectToSMTPServer net config log with
    | (log', Ok conn) =>
        match
          NewSMTPClient net lib
            (contextWithTimeout contextBackground
               (secondsDuration (SMTPConfig.ServerTimeout config)))
            conn config log'
        with
        | (l, Ok c) =>
            ((l ++ [ActClientClose; ActClientQuit; ActConnClose])%list, Ok tt)
        | (l, Err e) =>
            ((l ++ [ActConnClose])%list,
             Err (errorsWrap e "unable to connect"))
        end
    | (log', Err e) => (log', Err (errorsWrap e "unable to connect"))
    end.
Proof.
  intros Hn. unfold TestConnection. rewrite Hn. cbn [negb].
  unfold effBind at 1. unfold wrapErr at 1.
  destruct (ConnectToSMTPServer net config log) as [log' [conn|err]];
    [|reflexivity].
  cbv zeta. unfold defer, effBind, wrapErr.
  destruct (NewSMTPClient _ _ _ _ _ _) as [l [c|e]].
  - unfold ignoreErr, Client_Close, Client_Quit, Conn_Close, perform, effRet.
    simpl. by rewrite <- !app_assoc.
  - reflexivity.
Qed.

(** Seconds that fit give the product itself. *)
Lemma secondsDuration_fits sec :
  -9223372036 <= sec <= 9223372036 ->
  secondsDuration sec = sec * timeSecond.
Proof.
  intros H. unfold secondsDuration, wrapInt64, timeSecond.
  rewrite Z.mod_small; lia.
Qed.

(** A timeout of whole seconds that fit is positive as a duration
    exactly when it is positive. *)
Lemma secondsDuration_pos sec :
  -9223372036 <= sec <= 9223372036 ->
  0 < secondsDuration sec <-> 0 < sec.
Proof.
  intros H. rewrite (secondsDuration_fits _ H). unfold timeSecond. lia.
Qed.

(** With a timeout that is not positive as a duration the set-up never
    goes through: a negative one fails the dial, and with zero the
    context is done before the handshake. *)
Lemma NewSMTPClient_expired d conn config log :
  d <= 0 ->
  exists e,
    snd (NewSMTPClient net lib (contextWithTimeout contextBackground d)
           conn config log) = Err e.
Proof.
  intros Hd. unfold contextWithTimeout, contextBackground.
  assert ((d <=? 0) = true) as -> by lia.
  unfold NewSMTPClient, NewSMTPClientAdvanced, effBind, perform, effFail.
  cbn [selected].
  destruct (handshake net) as [err|err]; simpl; by eexists.
Qed.

Lemma send_with_expired_timeout mail config enableComplianceFeatures log :
  SMTPConfig.Server config <> "" ->
  secondsDuration (SMTPConfig.ServerTimeout config) <= 0 ->
  exists e,
    snd (sendMailUsingConfigAdvanced net lib mail config
           enableComplianceFeatures log) = Err e.
Proof.
  intros Hs Hd. apply String.eqb_neq in Hs.
  unfold sendMailUsingConfigAdvanced. rewrite Hs.
  unfold effBind, defer.
  destruct (ConnectToSMTPServer net config log) as [log1 [conn|e]];
    [|by eexists].
  cbv zeta.
  destruct (NewSMTPClient_expired _ conn config log1 Hd) as [e He].
  destruct (NewSMTPClient _ _ _ _ _ _) as [l r]. simpl in He. subst r.
  by eexists.
Qed.

End SetupAccepted.

Section SendFacts.

Context (net : Network) (lib : Libs).

(** C9: with an empty server address the send returns nil and the record
    of network actions is left as it was: nothing is dialled or sent. *)
Theorem send_with_empty_server (mail : mailData) (config : SMTPConfig.t)
    (enableComplianceFeatures : bool) (log : list Action) :
  SMTPConfig.Server config = "" ->
  sendMailUsingConfigAdvanced net lib mail config enableComplianceFeatures log
  = (log, Ok tt).
Proof.
  intros H. unfold sendMailUsingConfigAdvanced. rewrite H. reflexivity.
Qed.

Lemma TestConnection_disabled config log :
  SMTPConfig.SendEmailNotifications config = false ->
  TestConnection net lib config log
  = (log, Err (errorsNew "SendEmailNotifications is not true")).
Proof. intros H. unfold TestConnection. rewrite H. reflexivity. Qed.

Lemma NewSMTPClient_passes_setHandshake e conn config log :
  Error e = "context canceled" ->
  (forall localName, hello net localName = None) ->
  (SMTPConfig.EnableSMTPAuth config = true ->
   authExchange net = None
   /\ exists r,
        snd (authChooser_Start lib
               {| Auth := None; connectionInfo := connectionInfoOf config |}
               (serverInfo net)) = Ok r) ->
  NewSMTPClient (setHandshake (CtxDone (Some e)) net) lib None conn config log
  = ((log ++ setupActions config)%list,
     Ok {| clientConn := conn;
           serverName := SMTPConfig.Server config +:+ ":"
                         +:+ SMTPConfig.Port config |}).
Proof.
  intros He Hhello Hauth.
  apply (NewSMTPClient_passes (setHandshake (CtxDone (Some e)) net) lib);
    [|exact Hhello|exact Hauth].
  right. by exists e.
Qed.

(** A context error with any other text than "context canceled" ends the
    set-up after the client was started. *)
Lemma NewSMTPClient_ctx_error e conn config log :
  Error e <> "context canceled" ->
  NewSMTPClient (setHandshake (CtxDone (Some e)) net) lib None conn config log
  = ((log ++ [ActNewClient (SMTPConfig.Server config +:+ ":"
                            +:+ SMTPConfig.Port config)])%list,
     Err (errorsWrap e "unable to connect to the SMTP server")).
Proof.
  intros H. apply String.eqb_neq in H.
  unfold NewSMTPClient, NewSMTPClientAdvanced.
  cbn [handshake setHandshake selected].
  unfold effBind, perform. simpl. rewrite H. reflexivity.
Qed.

(** Two context errors with the same text give the same set-up. *)
Lemma NewSMTPClient_text_only e1 e2 ctx conn config log :
  Error e1 = Error e2 ->
  let r1 := NewSMTPClient (setHandshake (CtxDone (Some e1)) net) lib ctx
              conn config log in
  let r2 := NewSMTPClient (setHandshake (CtxDone (Some e2)) net) lib ctx
              conn config log in
  fst r1 = fst r2 /\ errorText (snd r1) = errorText (snd r2)
  /\ (forall c1, snd r1 = Ok c1 -> snd r2 = Ok c1).
Proof.
  intros H. cbv zeta.
  unfold NewSMTPClient, NewSMTPClientAdvanced.
  cbn [handshake setHandshake].
  destruct ctx as [e|]; cbn [selected]; [done|].
  unfold effBind at 1 3. unfold effBind at 1 2.
  unfold perform at 1 2. cbn iota beta.
  rewrite <- H.
  destruct (negb (String.eqb (Error e1) "context canceled")).
  - unfold effFail. simpl. by rewrite H.
  - done.
Qed.

Lemma TestConnection_text_only e1 e2 config log :
  Error e1 = Error e2 ->
  let r1 := TestConnection (setHandshake (CtxDone (Some e1)) net) lib
              config log in
  let r2 := TestConnection (setHandshake (CtxDone (Some e2)) net) lib
              config log in
  fst r1 = fst r2 /\ errorText (snd r1) = errorText (snd r2).
Proof.
  intros H. cbv zeta.
  destruct (SMTPConfig.SendEmailNotifications config) eqn:Hn.
  - rewrite !(TestConnection_enabled _ _ _ _ Hn),
      !ConnectToSMTPServer_setHandshake.
    destruct (ConnectToSMTPServer net config log) as [log' [conn|err]];
      [|done].
    destruct (NewSMTPClient_text_only e1 e2
                (contextWithTimeout contextBackground
                   (secondsDuration (SMTPConfig.ServerTimeout config)))
                conn config log' H) as (Hfst & Htext & _).
    destruct (NewSMTPClient (setHandshake (CtxDone (Some e1)) net) _ _ _ _ _)
      as [l1 [c1|x1]];
      destruct (NewSMTPClient (setHandshake (CtxDone (Some e2)) net) _ _ _ _ _)
      as [l2 [c2|x2]]; simpl in *; subst; try discriminate.
    + done.
    + injection Htext as Htext. by rewrite Htext.
  - unfold TestConnection. by rewrite Hn.
Qed.

Lemma TestConnection_canceled e config log :
  SMTPConfig.SendEmailNotifications config = true ->
  0 < secondsDuration (SMTPConfig.ServerTimeout config) ->
  Error e = "context canceled" ->
  setupAccepted net lib config ->
  TestConnection (setHandshake (CtxDone (Some e)) net) lib config log
  = ((log ++ [dialAction config] ++ setupActions config
      ++ [ActClientClose; ActClientQuit; ActConnClose])%list, Ok tt).
Proof.
  intros Hn Hlive He (Hdial & Hhello & Hauth).
  rewrite (TestConnection_enabled _ _ _ _ Hn),
    ConnectToSMTPServer_setHandshake, ConnectToSMTPServer_result.
  destruct (ConnectToSMTPServer_accepted net config Hdial Hlive) as [conn ->].
  rewrite (contextWithTimeout_live _ Hlive).
  rewrite (NewSMTPClient_passes_setHandshake e conn config _ He Hhello Hauth).
  by rewrite <- !app_assoc.
Qed.

Lemma TestConnection_ctx_error e config log :
  SMTPConfig.SendEmailNotifications config = true ->
  0 < secondsDuration (SMTPConfig.ServerTimeout config) ->
  Error e <> "context canceled" ->
  dialAccepted net ->
  TestConnection (setHandshake (CtxDone (Some e)) net) lib config log
  = ((log ++ [dialAction config;
              ActNewClient (SMTPConfig.Server config +:+ ":"
                            +:+ SMTPConfig.Port config);
              ActConnClose])%list,
     Err (errorsWrap
            (errorsWrap e "unable to connect to the SMTP server")
            "unable to connect")).
Proof.
  intros Hn Hlive He Hdial.
  rewrite (TestConnection_enabled _ _ _ _ Hn),
    ConnectToSMTPServer_setHandshake, ConnectToSMTPServer_result.
  destruct (ConnectToSMTPServer_accepted net config Hdial Hlive) as [conn ->].
  rewrite (contextWithTimeout_live _ Hlive).
  rewrite (NewSMTPClient_ctx_error e conn config _ He).
  by rewrite <- !app_assoc.
Qed.

(** C8: with notifications disabled the self-test returns its own error
    and records no network action.  With notifications enabled and a
    timeout that is positive as a duration: when the context is done with
    an error whose text is "context canceled" and the server accepts the
    set-up, the self-test returns nil after the dial, the set-up and the
    three closes; when the text is anything else it fails with that error
    wrapped twice, after the dial and the start of the client.  Two
    errors with the same text give the same actions and the same error
    text, whatever errors they are. *)
Theorem TestConnection_spec (config : SMTPConfig.t) (log : list Action) :
  (SMTPConfig.SendEmailNotifications config = false ->
   TestConnection net lib config log
   = (log, Err (errorsNew "SendEmailNotifications is not true")))
  /\ (SMTPConfig.SendEmailNotifications config = true ->
      0 < secondsDuration (SMTPConfig.ServerTimeout config) ->
      forall e,
        (Error e = "context canceled" ->
         setupAccepted net lib config ->
         TestConnection (setHandshake (CtxDone (Some e)) net) lib config log
         = ((log ++ [dialAction config] ++ setupActions config
             ++ [ActClientClose; ActClientQuit; ActConnClose])%list, Ok tt))
        /\ (Error e <> "context canceled" ->
            dialAccepted net ->
            TestConnection (setHandshake (CtxDone (Some e)) net) lib
              config log
            = ((log ++ [dialAction config;
                        ActNewClient (SMTPConfig.Server config +:+ ":"
                                      +:+ SMTPConfig.Port config);
                        ActConnClose])%list,
               Err (errorsWrap
                      (errorsWrap e "unable to connect to the SMTP server")
                      "unable to connect"))))
  /\ (forall e1 e2, Error e1 = Error e2 ->
      let r1 := TestConnection (setHandshake (CtxDone (Some e1)) net) lib
                  config log in
      let r2 := TestConnection (setHandshake (CtxDone (Some e2)) net) lib
                  config log in
      fst r1 = fst r2 /\ errorText (snd r1) = errorText (snd r2)).
Proof.
  split; [apply TestConnection_disabled|]. split.
  - intros Hn Hlive e. split.
    + intros He Hacc. by apply TestConnection_canceled.
    + intros He Hdial. by apply TestConnection_ctx_error.
  - intros e1 e2 H. by apply TestConnection_text_only.
Qed.

(** C2 (where the code departs from it): with authentication disabled,
    what the server answers to STARTTLS changes neither the result of the
    send nor the actions it takes; a refused upgrade is not reported. *)
Theorem StartTLS_outcome_ignored (r : option GoError) (mail : mailData)
    (config : SMTPConfig.t) (enableComplianceFeatures : bool)
    (log : list Action) :
  SMTPConfig.EnableSMTPAuth config = false ->
  sendMailUsingConfigAdvanced (setStartTLS r net) lib mail config
    enableComplianceFeatures log
  = sendMailUsingConfigAdvanced net lib mail config
      enableComplianceFeatures log.
Proof. intros _. reflexivity. Qed.

End SendFacts.

Lemma send_with_empty_server_witness :
  run (sendMailUsingConfigAdvanced okNetwork sampleLibs sampleMail
         (sampleConfig "TLS" "" true true) false)
  = ([], Ok tt).
Proof.
  apply (send_with_empty_server okNetwork sampleLibs sampleMail
           (sampleConfig "TLS" "" true true) false []).
  reflexivity.
Defined.

(** The sample server accepts the set-up of every sample configuration
    for its own name. *)
Lemma okNetwork_setupAccepted security auth notify :
  setupAccepted okNetwork sampleLibs
    (sampleConfig security "mail.example.com" auth notify).
Proof.
  split; [by split|]. split; [done|].
  intros _. split; [done|]. by eexists.
Qed.

Lemma TestConnection_spec_witness :
  run (TestConnection okNetwork sampleLibs
         (sampleConfig "TLS" "mail.example.com" true false))
  = ([], Err (errorsNew "SendEmailNotifications is not true"))
  /\ run (TestConnection
            (setHandshake (CtxDone (Some (errorsNew "context canceled")))
               okNetwork)
            sampleLibs (sampleConfig "STARTTLS" "mail.example.com" true true))
     = ([ActDial "mail.example.com:587" 10;
         ActNewClient "mail.example.com:587"; ActHello "chat.example.com";
         ActStartTLS false "mail.example.com"; ActAuth; ActClientClose;
         ActClientQuit; ActConnClose], Ok tt)
  /\ run (TestConnection
            (setHandshake (CtxDone (Some contextDeadlineExceeded)) okNetwork)
            sampleLibs (sampleConfig "TLS" "mail.example.com" true true))
     = ([ActDialTLS "mail.example.com:587" 10 false "mail.example.com";
         ActNewClient "mail.example.com:587"; ActConnClose],
        Err (errorsWrap
               (errorsWrap contextDeadlineExceeded
                  "unable to connect to the SMTP server")
               "unable to connect")).
Proof.
  split; [|split].
  - apply (proj1 (TestConnection_spec okNetwork sampleLibs
                    (sampleConfig "TLS" "mail.example.com" true false) [])).
    reflexivity.
  - apply (proj1 (proj1 (proj2 (TestConnection_spec okNetwork sampleLibs
                    (sampleConfig "STARTTLS" "mail.example.com" true true)
                    []))
                    eq_refl eq_refl (errorsNew "context canceled"))).
    + reflexivity.
    + apply okNetwork_setupAccepted.
  - apply (proj2 (proj1 (proj2 (TestConnection_spec okNetwork sampleLibs
                    (sampleConfig "TLS" "mail.example.com" true true) []))
                    eq_refl eq_refl contextDeadlineExceeded)).
    + discriminate.
    + by split.
Defined.

(** The self-test against a server that accepts everything. *)
Example TestConnection_ok :
  run (TestConnection okNetwork sampleLibs
         (sampleConfig "STARTTLS" "mail.example.com" true true))
  = ([ActDial "mail.example.com:587" 10;
      ActNewClient "mail.example.com:587"; ActHello "chat.example.com";
      ActStartTLS false "mail.example.com"; ActAuth; ActClientClose;
      ActClientQuit; ActConnClose], Ok tt).
Proof. reflexivity. Qed.

(** A timeout of zero seconds: the dial has no deadline, the context is
    done before the handshake. *)
Example TestConnection_zero_timeout :
  run (TestConnection okNetwork sampleLibs
         (withServerTimeout 0
            (sampleConfig "TLS" "mail.example.com" true true)))
  = ([ActDialTLS "mail.example.com:587" 0 false "mail.example.com";
      ActNewClient "mail.example.com:587"; ActConnClose],
     Err (errorsWrap
            (errorsWrap contextDeadlineExceeded
               "unable to connect to the SMTP server")
            "unable to connect")).
Proof. reflexivity. Qed.

(** The first timeout whose duration wraps around: the dial fails. *)
Example send_wrapping_timeout :
  secondsDuration 9223372037 = -9223372036709551616
  /\ run (sendMailUsingConfigAdvanced okNetwork sampleLibs sampleMail
            (withServerTimeout 9223372037
               (sampleConfig "" "mail.example.com" false true)) false)
     = ([ActDial "mail.example.com:587" 9223372037],
        Err (errorsWrap (dialTimeout "mail.example.com:587")
               "unable to connect to the SMTP server")).
Proof. split; reflexivity. Qed.

(** The deadline passing during the handshake is reported. *)
Example TestConnection_deadline :
  run (TestConnection
         (setHandshake (CtxDone (Some contextDeadlineExceeded)) okNetwork)
         sampleLibs (sampleConfig "TLS" "mail.example.com" true true))
  = ([ActDialTLS "mail.example.com:587" 10 false "mail.example.com";
      ActNewClient "mail.example.com:587"; ActConnClose],
     Err (errorsWrap
            (errorsWrap contextDeadlineExceeded
               "unable to connect to the SMTP server")
            "unable to connect")).
Proof. reflexivity. Qed.

(** C2, at the failing input: the server refuses STARTTLS, the
    configuration asks for it and has authentication off; the mail is
    handed over all the same, in the clear, and the send returns nil. *)
Lemma StartTLS_refused_mail_sent :
  run (sendMailUsingConfigAdvanced noStartTLSNetwork sampleLibs sampleMail
         (sampleConfig "STARTTLS" "mail.example.com" false true) false)
  = ([ActDial "mail.example.com:587" 10;
      ActNewClient "mail.example.com:587"; ActHello "chat.example.com";
      ActStartTLS false "mail.example.com"; ActMail "chat@example.com";
      ActRcpt "user@example.com"; ActData;
      ActWrite (mailMessage sampleLibs sampleMail (timeNow okNetwork));
      ActCloseData; ActClientClose; ActClientQuit; ActConnClose], Ok tt).
Proof.
  unfold noStartTLSNetwork, run.
  rewrite (StartTLS_outcome_ignored okNetwork sampleLibs
             (Some (errorsNew "502 5.5.1 command not implemented"))
             sampleMail
             (sampleConfig "STARTTLS" "mail.example.com" false true)
             false [] eq_refl).
  vm_compute. reflexivity.
Defined.

(** ** The message and its transmission *)

Section MessageFacts.

Context (lib : Libs).

(** Embedding files leaves the text and HTML parts alone. *)
Lemma parts_EmbedReader m (files : gmap string Reader) :
  gomail.parts
    (map_fold (λ name reader acc, gomail.EmbedReader name reader acc) m files)
  = gomail.parts m.
Proof.
  apply (map_fold_weak_ind (λ r _, gomail.parts r = gomail.parts m));
    [reflexivity|].
  intros name reader files' r _ IH. exact IH.
Qed.

Lemma plainTextOf_failed html :
  snd (html2textFromString lib html) <> None -> plainTextOf lib html = "".
Proof.
  unfold plainTextOf. destruct (html2textFromString lib html) as [txt [e|]];
    [reflexivity|]. intros H. by destruct H.
Qed.

Lemma mailMessage_parts mail date :
  gomail.parts (mailMessage lib mail date)
  = [("text/plain", plainTextOf lib (htmlBody mail));
     ("text/html",
      crlf +:+ "<html><body>" +:+ htmlBody mail +:+ "</body></html>")].
Proof. unfold mailMessage. rewrite parts_EmbedReader. reflexivity. Qed.

Lemma mailMessage_failed mail date :
  snd (html2textFromString lib (htmlBody mail)) <> None ->
  mailMessage lib mail date
  = mailMessage (setHtml2text (λ _, ("", None)) lib) mail date.
Proof.
  intros H. unfold mailMessage.
  rewrite (plainTextOf_failed _ H). reflexivity.
Qed.

(** A server that accepts every command gets the whole message. *)
Lemma SendMail_all_accepted (net : Network) c mail date log :
  let m := mailMessage lib mail date in
  mailFrom net (Address.Address (from mail)) = None ->
  rcptTo net (smtpTo mail) = None ->
  data net = None -> writeTo net m = None -> closeData net = None ->
  SendMail lib (client := Client_smtpClient net) c mail date log
  = ((log ++ [ActMail (Address.Address (from mail)); ActRcpt (smtpTo mail);
              ActData; ActWrite m; ActCloseData])%list, Ok tt).
Proof.
  intros m Hmail Hrcpt Hdata Hwrite Hclose.
  unfold SendMail, effBind, wrapErr, effRet; simpl.
  unfold Client_Mail, Client_Rcpt, Client_Data, perform; simpl.
  rewrite Hmail, Hrcpt, Hdata; simpl.
  fold m. rewrite Hwrite, Hclose; simpl.
  by rewrite <- !app_assoc.
Qed.

(** C10: when the HTML body cannot be converted to text, the message
    carries an empty text part next to the HTML part; [SendMail] then does
    exactly what it does when the conversion succeeds with the empty
    text, for every client; and a server that accepts every command is
    sent the message and the send returns nil. *)
Theorem SendMail_conversion_failure (mail : mailData) (date : Time) :
  snd (html2textFromString lib (htmlBody mail)) <> None ->
  gomail.parts (mailMessage lib mail date)
  = [("text/plain", "");
     ("text/html",
      crlf +:+ "<html><body>" +:+ htmlBody mail +:+ "</body></html>")]
  /\ (forall C (client : smtpClient C) (c : C) log,
        SendMail lib c mail date log
        = SendMail (setHtml2text (λ _, ("", None)) lib) c mail date log)
  /\ (forall (net : Network) c log,
        mailFrom net (Address.Address (from mail)) = None ->
        rcptTo net (smtpTo mail) = None ->
        data net = None ->
        writeTo net (mailMessage lib mail date) = None ->
        closeData net = None ->
        SendMail lib (client := Client_smtpClient net) c mail date log
        = ((log ++ [ActMail (Address.Address (from mail));
                    ActRcpt (smtpTo mail); ActData;
                    ActWrite (mailMessage lib mail date);
                    ActCloseData])%list, Ok tt)).
Proof.
  intros Hfail. split; [|split].
  - rewrite mailMessage_parts, (plainTextOf_failed _ Hfail). reflexivity.
  - intros C client c log. unfold SendMail.
    by rewrite (mailMessage_failed _ _ Hfail).
  - intros net c log. apply SendMail_all_accepted.
Qed.

End MessageFacts.

Lemma SendMail_conversion_failure_witness :
  gomail.parts (mailMessage sampleLibs sampleMail 1700000000000)
  = [("text/plain", "");
     ("text/html", crlf +:+ "<html><body><p>hi</p></body></html>")].
Proof.
  apply (SendMail_conversion_failure sampleLibs sampleMail 1700000000000).
  discriminate.
Defined.

(** ** Which errors the send path returns *)

Section PhaseFacts.

Context (net : Network) (lib : Libs).

Ltac phase :=
  simpl;
  (exact I
   || (do 2 eexists; split; [reflexivity|]; unfold phaseMessages; set_solver)).

Lemma ConnectToSMTPServer_phase config log :
  phaseWrapped (snd (ConnectToSMTPServer net config log)).
Proof.
  unfold ConnectToSMTPServer, ConnectToSMTPServerAdvanced, wrapErr, perform.
  cbn -[String.eqb secondsDuration dialAnswer selected].
  destruct (String.eqb _ _); simpl.
  - destruct (dialAnswer _ _ (dialTLS net _)); phase.
  - destruct (dialAnswer _ _ (dial net _)); phase.
Qed.

Lemma NewSMTPClient_phase ctx conn config log :
  phaseWrapped (snd (NewSMTPClient net lib ctx conn config log)).
Proof.
  unfold NewSMTPClient, NewSMTPClientAdvanced, effBind, wrapErr, perform,
    ignoreErr, effFail, effRet, Client_Hello, Client_StartTLS, Client_Auth.
  cbn -[String.eqb authChooser_Start selected].
  destruct (selected ctx (handshake net)) as [[e|]|e];
    [destruct (negb (String.eqb (Error e) _))| |]; try phase.
  all: destruct (negb (String.eqb (SMTPConfig.Hostname config) ""));
    cbn -[String.eqb authChooser_Start selected];
    [destruct (hello net _); cbn -[String.eqb authChooser_Start selected];
     try phase|].
  all: destruct (String.eqb (SMTPConfig.ConnectionSecurity config) _);
    cbn -[String.eqb authChooser_Start selected].
  all: destruct (SMTPConfig.EnableSMTPAuth config);
    cbn -[String.eqb authChooser_Start selected]; try phase.
  all: destruct (snd (authChooser_Start _ _ _));
    cbn -[String.eqb authChooser_Start selected]; try phase.
  all: destruct (authExchange net); phase.
Qed.

Lemma SendMail_phase c mail date log :
  phaseWrapped
    (snd (SendMail lib (client := Client_smtpClient net) c mail date log)).
Proof.
  unfold SendMail, effBind, wrapErr, effRet; simpl.
  unfold Client_Mail, Client_Rcpt, Client_Data, perform; simpl.
  destruct (mailFrom net _); [phase|]; simpl.
  destruct (rcptTo net _); [phase|]; simpl.
  destruct (data net); [phase|]; simpl.
  destruct (writeTo net _); [phase|]; simpl.
  destruct (closeData net); phase.
Qed.

(** X1: every error the send returns is wrapped with the message of the
    phase that failed: connecting, the hello, authentication, the
    envelope, the data command, writing the body, closing the stream.
    No message belongs to the STARTTLS upgrade. *)
Theorem send_errors_are_phase_wrapped mail config enableComplianceFeatures
    log :
  phaseWrapped
    (snd (sendMailUsingConfigAdvanced net lib mail config
            enableComplianceFeatures log)).
Proof.
  unfold sendMailUsingConfigAdvanced.
  destruct (String.eqb (SMTPConfig.Server config) ""); [exact I|].
  unfold effBind, defer.
  pose proof (ConnectToSMTPServer_phase config log) as Hc.
  destruct (ConnectToSMTPServer net config log) as [log1 [conn|e]];
    [|exact Hc].
  cbv zeta. set (ctx := contextWithTimeout _ _).
  pose proof (NewSMTPClient_phase ctx conn config log1) as Hn.
  destruct (NewSMTPClient net lib ctx conn config log1) as [log2 [c|e]];
    [|exact Hn].
  pose proof (SendMail_phase c mail (timeNow net) log2) as Hs.
  destruct (SendMail lib c mail (timeNow net) log2) as [log3 r]. exact Hs.
Qed.

End PhaseFacts.

(** With authentication on and a server that reports no TLS, the refused
    upgrade shows only as an authentication failure. *)
Example StartTLS_refused_with_auth :
  snd (run (sendMailUsingConfigAdvanced
              {| dial := dial noStartTLSNetwork;
                 dialTLS := dialTLS noStartTLSNetwork;
                 handshake := handshake noStartTLSNetwork;
                 hello := hello noStartTLSNetwork;
                 startTLS := startTLS noStartTLSNetwork;
                 serverInfo := {| smtp.Name := "mail.example.com:587";
                                  smtp.TLS := false;
                                  smtp.Auth := ["LOGIN"] |};
                 authExchange := authExchange noStartTLSNetwork;
                 mailFrom := mailFrom noStartTLSNetwork;
                 rcptTo := rcptTo noStartTLSNetwork;
                 data := data noStartTLSNetwork;
                 writeTo := writeTo noStartTLSNetwork;
                 closeData := closeData noStartTLSNetwork;
                 timeNow := timeNow noStartTLSNetwork |}
              sampleLibs sampleMail
              (sampleConfig "STARTTLS" "mail.example.com" true true) false))
  = Err (errorsWrap (errorsNew "unencrypted connection")
           "authentication failed").
Proof. reflexivity. Qed.

(** ** What a run adds to the record *)

Section AppendsFacts.

Context {A B : Type} (P : Action -> Prop).

Lemma appends_ret (a : A) : appends P (effRet a).
Proof. intros log. exists []. split; [by rewrite app_nil_r|constructor]. Qed.

Lemma appends_fail (e : GoError) : appends P (@effFail A e).
Proof. intros log. exists []. split; [by rewrite app_nil_r|constructor]. Qed.

Lemma appends_perform (a : Action) (r : result A) :
  P a -> appends P (perform a r).
Proof. intros Ha log. exists [a]. split; [done|]. by constructor. Qed.

Lemma appends_bind (m : Eff A) (k : A -> Eff B) :
  appends P m -> (forall x, appends P (k x)) -> appends P (effBind m k).
Proof.
  intros Hm Hk log. unfold effBind.
  destruct (Hm log) as (added1 & Heq1 & HP1).
  destruct (m log) as [log1 [x|e]]; simpl in Heq1; subst log1.
  - destruct (Hk x (log ++ added1)%list) as (added2 & Heq2 & HP2).
    exists (added1 ++ added2)%list. rewrite Heq2, app_assoc.
    split; [done|]. by apply Forall_app.
  - by exists added1.
Qed.

Lemma appends_wrapErr (m : Eff A) (msg : string) :
  appends P m -> appends P (wrapErr m msg).
Proof.
  intros Hm log. unfold wrapErr.
  destruct (Hm log) as (added & Heq & HP).
  destruct (m log) as [log1 [x|e]]; by exists added.
Qed.

Lemma appends_defer (d : Eff unit) (body : Eff A) :
  appends P d -> appends P body -> appends P (defer d body).
Proof.
  intros Hd Hbody log. unfold defer.
  destruct (Hbody log) as (added1 & Heq1 & HP1).
  destruct (body log) as [log1 r]; simpl in Heq1; subst log1.
  destruct (Hd (log ++ added1)%list) as (added2 & Heq2 & HP2).
  exists (added1 ++ added2)%list. simpl. rewrite Heq2, app_assoc.
  split; [done|]. by apply Forall_app.
Qed.

End AppendsFacts.

Lemma appends_ignoreErr P (m : Eff unit) :
  appends P m -> appends P (ignoreErr m).
Proof. intros Hm log. unfold ignoreErr. simpl. apply Hm. Qed.

Lemma appends_weaken {A} (P Q : Action -> Prop) (m : Eff A) :
  (forall a, P a -> Q a) -> appends P m -> appends Q m.
Proof.
  intros HPQ Hm log. destruct (Hm log) as (added & Heq & HP).
  exists added. split; [done|]. by eapply Forall_impl.
Qed.

Create HintDb appends.
#[local] Hint Resolve appends_ret appends_fail appends_perform appends_bind
  appends_wrapErr appends_defer appends_ignoreErr : appends.

Section SetupFacts.

Context (net : Network) (lib : Libs).

Lemma NewSMTPClientAdvanced_appends ctx conn hostname info :
  appends (setupAction hostname info)
    (NewSMTPClientAdvanced net lib ctx conn hostname info).
Proof.
  unfold NewSMTPClientAdvanced.
  repeat (apply appends_bind; [|intros ?]); try apply appends_ret.
  - by apply appends_perform.
  - destruct (selected ctx (handshake net)) as [[e|]|e];
      [destruct (negb _)| |]; auto with appends.
  - destruct (negb (String.eqb hostname "")) eqn:Hh; [|apply appends_ret].
    apply appends_wrapErr, appends_perform. simpl.
    apply negb_true_iff, String.eqb_neq in Hh. done.
  - destruct (String.eqb_spec (SmtpConnectionInfo.ConnectionSecurity info)
                              connSecurityStarttls) as [Hs|_];
      [|apply appends_ret].
    apply appends_ignoreErr, appends_perform. done.
  - destruct (SmtpConnectionInfo.Auth info) eqn:Ha; [|apply appends_ret].
    apply appends_wrapErr. unfold Client_Auth.
    destruct (snd _).
    + by apply appends_perform.
    + apply appends_bind; [|intros ?; apply appends_fail].
      apply appends_ignoreErr. by apply appends_perform.
Qed.

(** X4: client set-up only adds to the record, and every action it adds
    is one the configuration asks for: the hello only for a non-empty
    host name, STARTTLS only in that security mode, authentication only
    when it is enabled, and never a command that hands over a mail. *)
Theorem NewSMTPClientAdvanced_steps (ctx : GoContext) (conn : Conn) (hostname : string)
    (info : SmtpConnectionInfo.t) (log : list Action) :
  exists added,
    fst (NewSMTPClientAdvanced net lib ctx conn hostname info log)
    = (log ++ added)%list
    /\ Forall (setupAction hostname info) added.
Proof.
  destruct (NewSMTPClientAdvanced_appends ctx conn hostname info log)
    as (added & Heq & Hsteps).
  exists added. by split.
Qed.

Lemma setupAction_not_transmission hostname info a :
  setupAction hostname info a -> isTransmission a = false.
Proof. by destruct a. Qed.

Lemma ConnectToSMTPServer_appends config :
  appends (λ a, isTransmission a = false) (ConnectToSMTPServer net config).
Proof.
  unfold ConnectToSMTPServer, ConnectToSMTPServerAdvanced.
  destruct (String.eqb _ _); by apply appends_wrapErr, appends_perform.
Qed.

Lemma TestConnection_appends config :
  appends (λ a, isTransmission a = false) (TestConnection net lib config).
Proof.
  unfold TestConnection.
  destruct (negb _); [apply appends_fail|].
  apply appends_bind; [apply appends_wrapErr, ConnectToSMTPServer_appends|].
  intros conn. apply appends_defer; [by apply appends_perform|].
  apply appends_bind.
  - apply appends_wrapErr. unfold NewSMTPClient.
    eapply appends_weaken; [|apply NewSMTPClientAdvanced_appends].
    apply setupAction_not_transmission.
  - intros c.
    repeat (apply appends_bind; [|intros ?]); try apply appends_ret;
      by apply appends_ignoreErr, appends_perform.
Qed.

(** X3: the self-test only adds to the record, and nothing it adds is an
    envelope command, a data command or a body: it never hands over a
    mail. *)
Theorem TestConnection_never_transmits (config : SMTPConfig.t)
    (log : list Action) :
  exists added,
    fst (TestConnection net lib config log) = (log ++ added)%list
    /\ Forall (λ a, isTransmission a = false) added.
Proof.
  destruct (TestConnection_appends config log) as (added & Heq & Hnone).
  exists added. by split.
Qed.

End SetupFacts.

(** ** What the self-test and the send return *)

Section ResultFacts.

Context (net : Network) (lib : Libs).

Ltac wrapped :=
  simpl;
  (exact I
   || (do 2 eexists; split; [reflexivity|];
       unfold setupMessages, sendMessages; set_solver)).

(** *** What the steps return does not depend on the record so far *)

Lemma NewSMTPClient_result ctx conn config log :
  snd (NewSMTPClient net lib ctx conn config log)
  = snd (NewSMTPClient net lib ctx conn config []).
Proof.
  unfold NewSMTPClient, NewSMTPClientAdvanced, effBind, wrapErr, perform,
    ignoreErr, effFail, effRet, Client_Hello, Client_StartTLS, Client_Auth,
    Client_Quit.
  cbn -[String.eqb authChooser_Start selected].
  destruct (selected ctx (handshake net)) as [[e|]|e];
    [destruct (negb (String.eqb (Error e) _))| |]; try reflexivity.
  all: destruct (negb (String.eqb (SMTPConfig.Hostname config) ""));
    cbn -[String.eqb authChooser_Start selected];
    [destruct (hello net _); cbn -[String.eqb authChooser_Start selected];
     try reflexivity|].
  all: destruct (String.eqb (SMTPConfig.ConnectionSecurity config) _);
    cbn -[String.eqb authChooser_Start selected].
  all: destruct (SMTPConfig.EnableSMTPAuth config);
    cbn -[String.eqb authChooser_Start selected]; try reflexivity.
  all: destruct (snd (authChooser_Start _ _ _));
    cbn -[String.eqb authChooser_Start selected]; try reflexivity.
  all: by destruct (authExchange net).
Qed.

Lemma ConnectToSMTPServer_setup config log :
  wrappedWith setupMessages (snd (ConnectToSMTPServer net config log)).
Proof.
  unfold ConnectToSMTPServer, ConnectToSMTPServerAdvanced, wrapErr, perform.
  cbn -[String.eqb secondsDuration dialAnswer selected].
  destruct (String.eqb _ _); simpl.
  - destruct (dialAnswer _ _ (dialTLS net _)); wrapped.
  - destruct (dialAnswer _ _ (dial net _)); wrapped.
Qed.

Lemma NewSMTPClient_setup ctx conn config log :
  wrappedWith setupMessages (snd (NewSMTPClient net lib ctx conn config log)).
Proof.
  unfold NewSMTPClient, NewSMTPClientAdvanced, effBind, wrapErr, perform,
    ignoreErr, effFail, effRet, Client_Hello, Client_StartTLS, Client_Auth.
  cbn -[String.eqb authChooser_Start selected].
  destruct (selected ctx (handshake net)) as [[e|]|e];
    [destruct (negb (String.eqb (Error e) _))| |]; try wrapped.
  all: destruct (negb (String.eqb (SMTPConfig.Hostname config) ""));
    cbn -[String.eqb authChooser_Start selected];
    [destruct (hello net _); cbn -[String.eqb authChooser_Start selected];
     try wrapped|].
  all: destruct (String.eqb (SMTPConfig.ConnectionSecurity config) _);
    cbn -[String.eqb authChooser_Start selected].
  all: destruct (SMTPConfig.EnableSMTPAuth config);
    cbn -[String.eqb authChooser_Start selected]; try wrapped.
  all: destruct (snd (authChooser_Start _ _ _));
    cbn -[String.eqb authChooser_Start selected]; try wrapped.
  all: destruct (authExchange net); wrapped.
Qed.

Lemma SendMail_send c mail date log :
  wrappedWith sendMessages
    (snd (SendMail lib (client := Client_smtpClient net) c mail date log)).
Proof.
  unfold SendMail, effBind, wrapErr, effRet; simpl.
  unfold Client_Mail, Client_Rcpt, Client_Data, perform; simpl.
  destruct (mailFrom net _); [wrapped|]; simpl.
  destruct (rcptTo net _); [wrapped|]; simpl.
  destruct (data net); [wrapped|]; simpl.
  destruct (writeTo net _); [wrapped|]; simpl.
  destruct (closeData net); wrapped.
Qed.

(** X2: the self-test returns nil, its own error for disabled
    notifications, or a set-up error (connect, hello, authentication)
    wrapped a second time with "unable to connect". *)
Theorem TestConnection_errors (config : SMTPConfig.t) (log : list Action) :
  match snd (TestConnection net lib config log) with
  | Ok _ => True
  | Err e => selfTestError e
  end.
Proof.
  unfold TestConnection.
  destruct (negb _); [by left|].
  unfold effBind, wrapErr, defer.
  pose proof (ConnectToSMTPServer_setup config log) as Hc.
  destruct (ConnectToSMTPServer net config log) as [log1 [conn|e]];
    cbn iota beta zeta.
  - set (ctx := contextWithTimeout _ _).
    pose proof (NewSMTPClient_setup ctx conn config log1) as Hn.
    destruct (NewSMTPClient net lib ctx conn config log1) as [log2 [c|e]];
      simpl; [exact I|].
    destruct Hn as (cause & msg & -> & Hmsg). right. by do 2 eexists.
  - destruct Hc as (cause & msg & -> & Hmsg). right. by do 2 eexists.
Qed.

(** X5: once the self-test passes, a send with the same configuration
    against the same server gets as far as [SendMail]: it returns nil or
    an error of the envelope, the data command, the body or the close. *)
Theorem send_after_passing_TestConnection (config : SMTPConfig.t)
    (mail : mailData) (enableComplianceFeatures : bool)
    (log log' : list Action) :
  snd (TestConnection net lib config log) = Ok tt ->
  wrappedWith sendMessages
    (snd (sendMailUsingConfigAdvanced net lib mail config
            enableComplianceFeatures log')).
Proof.
  unfold TestConnection, sendMailUsingConfigAdvanced.
  destruct (negb _); [discriminate|].
  destruct (String.eqb _ ""); [intros _; exact I|].
  unfold effBind, wrapErr, defer.
  rewrite (ConnectToSMTPServer_result net config log),
          (ConnectToSMTPServer_result net config log').
  destruct (snd (ConnectToSMTPServer net config [])) as [conn|e];
    [|discriminate].
  cbn iota beta zeta. set (ctx := contextWithTimeout _ _).
  pose proof (NewSMTPClient_result ctx conn config
                (log ++ [dialAction config])%list) as H1.
  pose proof (NewSMTPClient_result ctx conn config
                (log' ++ [dialAction config])%list) as H2.
  destruct (NewSMTPClient net lib ctx conn config (log ++ _)%list)
    as [l1 r1]. simpl in H1.
  destruct (NewSMTPClient net lib ctx conn config (log' ++ _)%list)
    as [l2 r2]. simpl in H2. subst r1 r2.
  destruct (snd (NewSMTPClient net lib ctx conn config [])) as [c|e];
    [|discriminate].
  intros _.
  pose proof (SendMail_send c mail (timeNow net) l2) as Hs.
  by destruct (SendMail lib c mail (timeNow net) l2) as [l3 r].
Qed.

Lemma defer_Conn_Close_last {A} conn (body : Eff A) log :
  last (fst (defer (Conn_Close conn) body log)) = Some ActConnClose.
Proof.
  unfold defer, Conn_Close, perform. destruct (body log) as [l r].
  simpl. apply last_snoc.
Qed.

(** X6: for the send and for the self-test alike, a connection that was
    opened is closed as the last action, whatever failed after the dial;
    when the dial fails the dial is the only action. *)
Theorem connection_closed_last (config : SMTPConfig.t) (mail : mailData)
    (enableComplianceFeatures : bool) (log : list Action) :
  (SMTPConfig.Server config <> "" ->
   match snd (ConnectToSMTPServer net config []) with
   | Ok _ =>
       last (fst (sendMailUsingConfigAdvanced net lib mail config
                    enableComplianceFeatures log)) = Some ActConnClose
   | Err _ =>
       fst (sendMailUsingConfigAdvanced net lib mail config
              enableComplianceFeatures log)
       = (log ++ [dialAction config])%list
   end)
  /\ (SMTPConfig.SendEmailNotifications config = true ->
      match snd (ConnectToSMTPServer net config []) with
      | Ok _ =>
          last (fst (TestConnection net lib config log)) = Some ActConnClose
      | Err _ =>
          fst (TestConnection net lib config log)
          = (log ++ [dialAction config])%list
      end).
Proof.
  split.
  - intros Hs. apply String.eqb_neq in Hs.
    unfold sendMailUsingConfigAdvanced. rewrite Hs.
    unfold effBind. rewrite (ConnectToSMTPServer_result net config log).
    destruct (snd (ConnectToSMTPServer net config [])) as [conn|e];
      [|done].
    apply defer_Conn_Close_last.
  - intros Hn. unfold TestConnection. rewrite Hn. simpl.
    unfold effBind, wrapErr.
    rewrite (ConnectToSMTPServer_result net config log).
    destruct (snd (ConnectToSMTPServer net config [])) as [conn|e];
      [|done].
    apply defer_Conn_Close_last.
Qed.

End ResultFacts.

(** ** Transmission *)

Section TransmissionFacts.

Context (net : Network) (lib : Libs).

Lemma SendMail_prefix (c : Client) (mail : mailData)
    (date : Time) (log : list Action) :
  let steps := [ActMail (Address.Address (from mail)); ActRcpt (smtpTo mail);
                ActData; ActWrite (mailMessage lib mail date); ActCloseData] in
  exists added,
    fst (SendMail lib (client := Client_smtpClient net) c mail date log)
    = (log ++ added)%list
    /\ added `prefix_of` steps
    /\ (snd (SendMail lib (client := Client_smtpClient net) c mail date log)
        = Ok tt -> added = steps).
Proof.
  unfold SendMail, effBind, wrapErr, effRet; simpl.
  unfold Client_Mail, Client_Rcpt, Client_Data, perform; simpl.
  destruct (mailFrom net _); simpl.
  { exists [ActMail (Address.Address (from mail))].
    split; [done|]. split; [by eexists|done]. }
  destruct (rcptTo net _); simpl.
  { exists [ActMail (Address.Address (from mail)); ActRcpt (smtpTo mail)].
    rewrite <- !app_assoc. split; [reflexivity|]. split; [by eexists|done]. }
  destruct (data net); simpl.
  { exists [ActMail (Address.Address (from mail)); ActRcpt (smtpTo mail);
            ActData].
    rewrite <- !app_assoc. split; [reflexivity|]. split; [by eexists|done]. }
  destruct (writeTo net _); simpl.
  { exists [ActMail (Address.Address (from mail)); ActRcpt (smtpTo mail);
            ActData; ActWrite (mailMessage lib mail date)].
    rewrite <- !app_assoc. split; [reflexivity|]. split; [by eexists|done]. }
  exists [ActMail (Address.Address (from mail)); ActRcpt (smtpTo mail);
          ActData; ActWrite (mailMessage lib mail date); ActCloseData].
  rewrite <- !app_assoc. destruct (closeData net); simpl;
    (split; [reflexivity|]; split; [reflexivity|done]).
Qed.

(** X8: [SendMail] issues MAIL, RCPT, DATA, the body and the close in
    that order and stops at the first one the server refuses: the
    refused step is the last action recorded, nothing after it is
    attempted, and the call returns that step's error wrapped with that
    step's message.  Only when all five are accepted does it return
    nil. *)
Theorem SendMail_stops_at_first_failure (c : Client) (mail : mailData)
    (date : Time) (log : list Action) :
  let sender := Address.Address (from mail) in
  let m := mailMessage lib mail date in
  SendMail lib (client := Client_smtpClient net) c mail date log
  = match mailFrom net sender with
    | Some e =>
        ((log ++ [ActMail sender])%list,
         Err (errorsWrap e "failed to set the from address"))
    | None =>
    match rcptTo net (smtpTo mail) with
    | Some e =>
        ((log ++ [ActMail sender; ActRcpt (smtpTo mail)])%list,
         Err (errorsWrap e "failed to set the to address"))
    | None =>
    match data net with
    | Some e =>
        ((log ++ [ActMail sender; ActRcpt (smtpTo mail); ActData])%list,
         Err (errorsWrap e "failed to add email message data"))
    | None =>
    match writeTo net m with
    | Some e =>
        ((log ++ [ActMail sender; ActRcpt (smtpTo mail); ActData;
                  ActWrite m])%list,
         Err (errorsWrap e "failed to write the email message"))
    | None =>
    match closeData net with
    | Some e =>
        ((log ++ [ActMail sender; ActRcpt (smtpTo mail); ActData;
                  ActWrite m; ActCloseData])%list,
         Err (errorsWrap e
                "failed to close connection to the SMTP server"))
    | None =>
        ((log ++ [ActMail sender; ActRcpt (smtpTo mail); ActData;
                  ActWrite m; ActCloseData])%list, Ok tt)
    end end end end end.
Proof.
  intros sender m.
  unfold SendMail, effBind, wrapErr, effRet; simpl.
  unfold Client_Mail, Client_Rcpt, Client_Data, perform; simpl.
  fold sender. destruct (mailFrom net sender); simpl; [done|].
  destruct (rcptTo net _); simpl; [by rewrite <- !app_assoc|].
  destruct (data net); simpl; [by rewrite <- !app_assoc|].
  fold m. destruct (writeTo net m); simpl; [by rewrite <- !app_assoc|].
  destruct (closeData net); simpl; by rewrite <- !app_assoc.
Qed.

Lemma SendMail_extends c mail date log :
  exists added,
    fst (SendMail lib (client := Client_smtpClient net) c mail date log)
    = (log ++ added)%list.
Proof.
  destruct (SendMail_prefix c mail date log) as (added & Heq & _).
  by exists added.
Qed.

(** X9: against a server that accepts everything, with authentication
    off and a timeout that is positive as a duration, the send returns
    nil after exactly these actions: one dial, the client, the hello and
    STARTTLS when configured, then the envelope with the feedback address
    as sender and the given recipient, the message built from the
    arguments (the recipient for both [To] and the envelope, the feedback
    name and address as sender, the reply-to address under the feedback
    name, no extra headers) dated with the clock, and the three
    closes. *)
Theorem SendMailWithEmbeddedFilesUsingConfig_accepted
    (to subject htmlBody : string) (embeddedFiles : gmap string Reader)
    (config : SMTPConfig.t) (enableComplianceFeatures : bool)
    (ccMail : string) :
  acceptsAll net ->
  SMTPConfig.Server config <> "" ->
  SMTPConfig.EnableSMTPAuth config = false ->
  0 < secondsDuration (SMTPConfig.ServerTimeout config) ->
  run (SendMailWithEmbeddedFilesUsingConfig net lib to subject htmlBody
         embeddedFiles config enableComplianceFeatures ccMail)
  = ([dialAction config;
      ActNewClient (SMTPConfig.Server config +:+ ":"
                    +:+ SMTPConfig.Port config)]
     ++ (if String.eqb (SMTPConfig.Hostname config) "" then []
         else [ActHello (SMTPConfig.Hostname config)])
     ++ (if String.eqb (SMTPConfig.ConnectionSecurity config)
                       connSecurityStarttls
         then [ActStartTLS
                 (SMTPConfig.SkipServerCertificateVerification config)
                 (SMTPConfig.Server config)]
         else [])
     ++ [ActMail (SMTPConfig.FeedbackEmail config); ActRcpt to; ActData;
         ActWrite
           (mailMessage lib
              {| mimeTo := to; smtpTo := to;
                 from := {| Address.Name := SMTPConfig.FeedbackName config;
                            Address.Address :=
                              SMTPConfig.FeedbackEmail config |};
                 cc := ccMail;
                 replyTo := {| Address.Name := SMTPConfig.FeedbackName config;
                               Address.Address :=
                                 SMTPConfig.ReplyToAddress config |};
                 subject := subject; htmlBody := htmlBody;
                 embeddedFiles := embeddedFiles; mimeHeaders := ∅ |}
              (timeNow net));
         ActCloseData; ActClientClose; ActClientQuit;
         ActConnClose], Ok tt)%list.
Proof.
  intros (Hdial & HdialTLS & Hhand & Hhello & Hmail & Hrcpt & Hdata & Hwrite
          & Hclose) Hserver Hauth Hlive.
  apply String.eqb_neq in Hserver.
  unfold run, SendMailWithEmbeddedFilesUsingConfig,
    sendMailUsingConfigAdvanced.
  rewrite Hserver. unfold effBind.
  rewrite (ConnectToSMTPServer_result net config []).
  destruct (ConnectToSMTPServer_accepted net config (conj Hdial HdialTLS)
              Hlive) as [conn ->].
  unfold defer. cbv zeta.
  rewrite (contextWithTimeout_live _ Hlive).
  rewrite (NewSMTPClient_passes net lib None conn config _ Hhand Hhello)
    by (intros H; rewrite Hauth in H; discriminate).
  rewrite SendMail_all_accepted by done.
  unfold Client_Close, Client_Quit, Conn_Close, perform, setupActions.
  rewrite Hauth. simpl. rewrite <- ?app_assoc, ?app_nil_r. reflexivity.
Qed.

End TransmissionFacts.

(** ** Closing *)

Section ClosingFacts.

Context (net : Network) (lib : Libs).

Lemma NewSMTPClient_extends ctx conn config log :
  exists added,
    fst (NewSMTPClient net lib ctx conn config log) = (log ++ added)%list.
Proof.
  unfold NewSMTPClient.
  edestruct (NewSMTPClientAdvanced_appends net lib) as (added & H & _).
  exists added. exact H.
Qed.

(** X7: once the client is set up, the send ends by closing the client,
    quitting and closing the connection, in that order, whatever
    [SendMail] returned. *)
Theorem client_closed_before_connection (config : SMTPConfig.t)
    (mail : mailData) (enableComplianceFeatures : bool)
    (log : list Action) (conn : Conn) (c : Client) :
  SMTPConfig.Server config <> "" ->
  snd (ConnectToSMTPServer net config []) = Ok conn ->
  snd (NewSMTPClient net lib
         (contextWithTimeout contextBackground
            (secondsDuration (SMTPConfig.ServerTimeout config)))
         conn config []) = Ok c ->
  exists before,
    fst (sendMailUsingConfigAdvanced net lib mail config
           enableComplianceFeatures log)
    = (log ++ before
       ++ [ActClientClose; ActClientQuit; ActConnClose])%list.
Proof.
  intros Hs Hconn Hclient. apply String.eqb_neq in Hs.
  unfold sendMailUsingConfigAdvanced. rewrite Hs.
  unfold effBind, defer.
  rewrite (ConnectToSMTPServer_result net config log), Hconn.
  cbv zeta. set (ctx := contextWithTimeout _ _) in *.
  pose proof (NewSMTPClient_result net lib ctx conn config
                (log ++ [dialAction config])%list) as Hr.
  destruct (NewSMTPClient_extends ctx conn config
              (log ++ [dialAction config])%list) as (setup & Hsetup).
  destruct (NewSMTPClient net lib ctx conn config (log ++ _)%list) as [l1 r1].
  simpl in Hr, Hsetup. subst l1. rewrite Hr, Hclient.
  destruct (SendMail_extends net lib c mail (timeNow net)
              ((log ++ [dialAction config]) ++ setup)%list)
    as (sent & Hsent).
  destruct (SendMail lib c mail (timeNow net) _) as [l2 r2].
  simpl in Hsent. subst l2.
  unfold Client_Close, Client_Quit, Conn_Close, perform. simpl.
  exists ([dialAction config] ++ setup ++ sent)%list.
  by rewrite <- !app_assoc.
Qed.

End ClosingFacts.


(** ** Authentication over an unencrypted session *)

Section UnencryptedFacts.

Context (net : Network) (lib : Libs).

Lemma authChooser_Start_unencrypted a server :
  "PLAIN" ∉ smtp.Auth server -> smtp.TLS server = false ->
  snd (authChooser_Start lib a server)
  = Err (errorsNew "unencrypted connection").
Proof.
  intros Hnin Htls. unfold authChooser_Start. simpl.
  rewrite (rangeServerAuth_no_PLAIN _ _ _ Hnin). simpl.
  by apply loginAuth_Start_unencrypted.
Qed.

Lemma NewSMTPClient_unencrypted_login ctx conn config log :
  SMTPConfig.EnableSMTPAuth config = true ->
  "PLAIN" ∉ smtp.Auth (serverInfo net) ->
  smtp.TLS (serverInfo net) = false ->
  (exists e, snd (NewSMTPClient net lib ctx conn config log) = Err e)
  /\ exists added,
       fst (NewSMTPClient net lib ctx conn config log) = (log ++ added)%list
       /\ Forall (λ a, isTransmission a = false /\ a <> ActAuth) added.
Proof.
  intros Hauth Hnin Htls.
  unfold NewSMTPClient, NewSMTPClientAdvanced, effBind, wrapErr, perform,
    ignoreErr, effFail, effRet, Client_Hello, Client_StartTLS, Client_Auth,
    Client_Quit.
  cbn -[String.eqb authChooser_Start selected].
  rewrite Hauth, (authChooser_Start_unencrypted _ _ Hnin Htls).
  destruct (selected ctx (handshake net)) as [[e|]|e];
    [destruct (negb (String.eqb (Error e) _))| |];
    cbn -[String.eqb secondsDuration dialAnswer selected].
  all: try (destruct (negb (String.eqb (SMTPConfig.Hostname config) ""));
            cbn -[String.eqb secondsDuration dialAnswer selected];
            [destruct (hello net _); cbn -[String.eqb secondsDuration dialAnswer selected]|];
            try (destruct (String.eqb (SMTPConfig.ConnectionSecurity config)
                             connSecurityStarttls);
                 cbn -[String.eqb secondsDuration dialAnswer selected])).
  all: (split; [by eexists|]);
    eexists; (split; [rewrite <- ?app_assoc; reflexivity|]);
    repeat constructor; done.
Qed.

(** X16: with authentication on, a server that does not list PLAIN and
    a session the client reports as unencrypted, the send never returns
    nil and records neither an authentication exchange nor any command
    that hands over the mail. *)
Theorem unencrypted_login_sends_nothing (mail : mailData)
    (config : SMTPConfig.t) (enableComplianceFeatures : bool)
    (log : list Action) :
  SMTPConfig.Server config <> "" ->
  SMTPConfig.EnableSMTPAuth config = true ->
  "PLAIN" ∉ smtp.Auth (serverInfo net) ->
  smtp.TLS (serverInfo net) = false ->
  (exists e,
     snd (sendMailUsingConfigAdvanced net lib mail config
            enableComplianceFeatures log) = Err e)
  /\ exists added,
       fst (sendMailUsingConfigAdvanced net lib mail config
              enableComplianceFeatures log) = (log ++ added)%list
       /\ Forall (λ a, isTransmission a = false /\ a <> ActAuth) added.
Proof.
  intros Hs Hauth Hnin Htls. apply String.eqb_neq in Hs.
  unfold sendMailUsingConfigAdvanced. rewrite Hs.
  unfold effBind, defer.
  rewrite (ConnectToSMTPServer_result net config log).
  assert (isTransmission (dialAction config) = false
          /\ dialAction config <> ActAuth) as Hdial.
  { unfold dialAction. cbv zeta.
    destruct (String.eqb (SMTPConfig.ConnectionSecurity config)
                         connSecurityTls);
      (split; [reflexivity|discriminate]). }
  destruct (snd (ConnectToSMTPServer net config [])) as [conn|e].
  - cbv zeta. set (ctx := contextWithTimeout _ _).
    destruct (NewSMTPClient_unencrypted_login ctx conn config
                (log ++ [dialAction config])%list Hauth Hnin Htls)
      as ((e & He) & added & Heq & Hadded).
    destruct (NewSMTPClient net lib ctx conn config _) as [l1 r1].
    simpl in He, Heq. subst l1 r1.
    split; [by eexists|].
    exists ([dialAction config] ++ added ++ [ActConnClose])%list.
    unfold Conn_Close, perform. simpl.
    split; [by rewrite <- !app_assoc|].
    constructor; [done|]. apply Forall_app. split; [done|].
    by repeat constructor.
  - split; [by eexists|]. exists [dialAction config].
    split; [done|]. by constructor.
Qed.

End UnencryptedFacts.


(** ** Headers and body of the message *)

Section HeaderFacts.

Context (lib : Libs).

(** A loop that assigns [acc[k] = f v] for every entry of a map yields
    the converted map laid over the initial one; the order of the
    iteration does not matter. *)
Lemma range_assign {V W} (f : V -> W) (m : gmap string V)
    (init : gmap string W) :
  map_fold (λ k v acc, <[k := f v]> acc) init m = (f <$> m) ∪ init.
Proof.
  apply (map_fold_weak_ind
           (λ r (m' : gmap string V), r = (f <$> m') ∪ init)).
  - by rewrite fmap_empty, (left_id_L ∅ (∪)).
  - intros k v m' r _ ->. by rewrite fmap_insert, insert_union_l.
Qed.

Lemma mailHeaders_union mail :
  mailHeaders lib mail
  = ((λ v, [encodeRFC2047Word lib v]) <$> mimeHeaders mail)
    ∪ mailHeaders lib (withMimeHeaders ∅ mail).
Proof.
  unfold mailHeaders at 1. rewrite range_assign. reflexivity.
Qed.

(** X10: a custom header, word-encoded, replaces the built-in header of
    the same name (From, To and Subject included); where there is no
    custom header the built-in one stands. *)
Theorem mailHeaders_custom_override (mail : mailData) (k : string) :
  mailHeaders lib mail !! k
  = match mimeHeaders mail !! k with
    | Some v => Some [encodeRFC2047Word lib v]
    | None => mailHeaders lib (withMimeHeaders ∅ mail) !! k
    end.
Proof.
  rewrite mailHeaders_union, lookup_union, lookup_fmap.
  destruct (mimeHeaders mail !! k) as [v|]; simpl.
  - by destruct (mailHeaders lib (withMimeHeaders ∅ mail) !! k).
  - by rewrite (left_id_L None union).
Qed.

(** X11: without custom headers the message has the six fixed headers,
    Reply-To only for a non-empty reply address and CC only for a
    non-empty copy address. *)
Theorem mailHeaders_names (mail : mailData) :
  mimeHeaders mail = ∅ ->
  dom (mailHeaders lib mail)
  = ({["From"; "To"; "Subject"; "Content-Transfer-Encoding";
       "Auto-Submitted"; "Precedence"]} : gset string)
    ∪ (if String.eqb (Address.Address (replyTo mail)) "" then ∅
       else {["Reply-To"]})
    ∪ (if String.eqb (cc mail) "" then ∅ else {["CC"]}).
Proof.
  intros Hm. unfold mailHeaders. rewrite Hm, map_fold_empty.
  destruct (String.eqb (Address.Address (replyTo mail)) "");
    destruct (String.eqb (cc mail) ""); simpl;
    rewrite !dom_insert_L, dom_empty_L; set_solver.
Qed.

Lemma header_EmbedReader m (files : gmap string Reader) :
  gomail.header
    (map_fold (λ name reader acc, gomail.EmbedReader name reader acc) m files)
  = gomail.header m.
Proof.
  apply (map_fold_weak_ind (λ r _, gomail.header r = gomail.header m));
    [reflexivity|].
  intros name reader files' r _ IH. exact IH.
Qed.

Lemma charset_EmbedReader m (files : gmap string Reader) :
  gomail.charset
    (map_fold (λ name reader acc, gomail.EmbedReader name reader acc) m files)
  = gomail.charset m.
Proof.
  apply (map_fold_weak_ind (λ r _, gomail.charset r = gomail.charset m));
    [reflexivity|].
  intros name reader files' r _ IH. exact IH.
Qed.

Lemma embedded_EmbedReader m (files : gmap string Reader) :
  gomail.embedded
    (map_fold (λ name reader acc, gomail.EmbedReader name reader acc) m files)
  = files ∪ gomail.embedded m.
Proof.
  apply (map_fold_weak_ind
           (λ r (fs : gmap string Reader),
              gomail.embedded r = fs ∪ gomail.embedded m)).
  - by rewrite (left_id_L ∅ (∪)).
  - intros name reader files' r _ IH. simpl.
    by rewrite IH, insert_union_l.
Qed.

(** X12: the headers of the message are those of [mailHeaders] with the
    date of the send on top: a custom Date header does not survive. *)
Theorem mailMessage_header (mail : mailData) (date : Time) :
  gomail.header (mailMessage lib mail date)
  = <["Date" := [FormatDate lib date]]> (mailHeaders lib mail).
Proof.
  unfold mailMessage. rewrite header_EmbedReader. simpl.
  f_equal. rewrite (range_assign id).
  by rewrite map_fmap_id, (right_id_L ∅ (∪)).
Qed.

(** X13: the message is UTF-8, has the text part and then the HTML part
    and nothing else as body, and embeds exactly the files given. *)
Theorem mailMessage_body (mail : mailData) (date : Time) :
  gomail.charset (mailMessage lib mail date) = "UTF-8"
  /\ gomail.parts (mailMessage lib mail date)
     = [("text/plain", plainTextOf lib (htmlBody mail));
        ("text/html",
         crlf +:+ "<html><body>" +:+ htmlBody mail +:+ "</body></html>")]
  /\ gomail.embedded (mailMessage lib mail date) = embeddedFiles mail.
Proof.
  unfold mailMessage.
  rewrite charset_EmbedReader, parts_EmbedReader, embedded_EmbedReader.
  simpl. by rewrite (right_id_L ∅ (∪)).
Qed.

End HeaderFacts.

Section LoginFacts.

Context (lib : Libs).

(** X14: [loginAuth.Next] returns nil when the server expects no more,
    the user name for the prompt "Username:", the password for the prompt
    "Password:" and for no other, and an error for any other prompt. *)
Theorem loginAuth_Next_spec (username password host fromServer : string)
    (more : bool) :
  match loginAuth_Next username password host fromServer more with
  | Ok None => more = false
  | Ok (Some answer) =>
      more = true
      /\ ((fromServer = "Username:" /\ answer = username)
          \/ (fromServer = "Password:" /\ answer = password))
  | Err e =>
      more = true /\ fromServer <> "Username:" /\ fromServer <> "Password:"
      /\ e = errorsNew "Unknown fromServer"
  end.
Proof.
  unfold loginAuth_Next. destruct more; [|done].
  destruct (String.eqb_spec fromServer "Username:") as [->|Hu];
    [by split; [|left]|].
  destruct (String.eqb_spec fromServer "Password:") as [->|Hp];
    [by split; [|right]|].
  done.
Qed.

(** X15: for a server that does not list PLAIN, [authChooser.Start] is
    the LOGIN start against the address [SmtpServerName:SmtpPort]: it
    succeeds exactly on an encrypted session whose server name is that
    address. *)
Theorem authChooser_Start_login (a : authChooser) (server : smtp.ServerInfo) :
  "PLAIN" ∉ smtp.Auth server ->
  let info := connectionInfo a in
  let smtpAddress := SmtpConnectionInfo.SmtpServerName info +:+ ":"
                     +:+ SmtpConnectionInfo.SmtpPort info in
  snd (authChooser_Start lib a server)
  = loginAuth_Start (SmtpConnectionInfo.SmtpUsername info)
      (SmtpConnectionInfo.SmtpPassword info) smtpAddress server
  /\ (snd (authChooser_Start lib a server) = Ok ("LOGIN", "")
      <-> smtp.TLS server = true /\ smtp.Name server = smtpAddress)
  /\ (forall r, snd (authChooser_Start lib a server) = Ok r
                -> r = ("LOGIN", "")).
Proof.
  intros Hnin. simpl. unfold authChooser_Start. simpl.
  rewrite (rangeServerAuth_no_PLAIN _ _ _ Hnin). simpl.
  split; [done|]. unfold loginAuth_Start.
  destruct (smtp.TLS server); simpl.
  - destruct (String.eqb_spec (smtp.Name server)
                (SmtpConnectionInfo.SmtpServerName (connectionInfo a) +:+ ":"
                 +:+ SmtpConnectionInfo.SmtpPort (connectionInfo a)))
      as [Heq|Hne]; simpl.
    + split; [done|]. by intros r [= <-].
    + split; [|done]. split; [done|]. by intros [_ ?].
  - split; [|done]. split; [done|]. by intros [? _].
Qed.

End LoginFacts.

(** ** Sample runs *)

Lemma okNetwork_acceptsAll : acceptsAll okNetwork.
Proof.
  unfold acceptsAll, okNetwork. simpl.
  repeat split; try done. right. by exists contextCanceled.
Qed.

Lemma client_closed_before_connection_witness :
  exists before,
    fst (run (sendMailUsingConfigAdvanced okNetwork sampleLibs sampleMail
                (sampleConfig "TLS" "mail.example.com" true true) false))
    = (before ++ [ActClientClose; ActClientQuit; ActConnClose])%list.
Proof.
  apply (client_closed_before_connection okNetwork sampleLibs
           (sampleConfig "TLS" "mail.example.com" true true) sampleMail
           false [] (TLSConn "mail.example.com:587")
           {| clientConn := TLSConn "mail.example.com:587";
              serverName := "mail.example.com:587" |}).
  - discriminate.
  - reflexivity.
  - reflexivity.
Defined.

Lemma send_after_passing_TestConnection_witness :
  wrappedWith sendMessages
    (snd (run (sendMailUsingConfigAdvanced okNetwork sampleLibs sampleMail
                 (sampleConfig "STARTTLS" "mail.example.com" true true)
                 false))).
Proof.
  apply (send_after_passing_TestConnection okNetwork sampleLibs
           (sampleConfig "STARTTLS" "mail.example.com" true true)
           sampleMail false [] []).
  reflexivity.
Defined.

Lemma SendMailWithEmbeddedFilesUsingConfig_accepted_witness :
  run (SendMailWithEmbeddedFilesUsingConfig okNetwork sampleLibs
         "user@example.com" "hello" "<p>hi</p>" ∅
         (sampleConfig "STARTTLS" "mail.example.com" false true) false "")
  = ([ActDial "mail.example.com:587" 10;
      ActNewClient "mail.example.com:587"; ActHello "chat.example.com";
      ActStartTLS false "mail.example.com"; ActMail "chat@example.com";
      ActRcpt "user@example.com"; ActData;
      ActWrite (mailMessage sampleLibs sampleMail (timeNow okNetwork));
      ActCloseData; ActClientClose; ActClientQuit; ActConnClose], Ok tt).
Proof.
  apply (SendMailWithEmbeddedFilesUsingConfig_accepted okNetwork
           sampleLibs "user@example.com" "hello" "<p>hi</p>" ∅
           (sampleConfig "STARTTLS" "mail.example.com" false true)
           false "" okNetwork_acceptsAll).
  - discriminate.
  - reflexivity.
  - reflexivity.
Defined.

Lemma mailHeaders_names_witness :
  dom (mailHeaders sampleLibs sampleMail)
  = ({["From"; "To"; "Subject"; "Content-Transfer-Encoding";
       "Auto-Submitted"; "Precedence"]} : gset string) ∪ ∅ ∪ ∅.
Proof.
  apply (mailHeaders_names sampleLibs sampleMail). reflexivity.
Defined.

Lemma authChooser_Start_login_witness :
  snd (authChooser_Start sampleLibs
         {| Auth := None;
            connectionInfo :=
              {| SmtpConnectionInfo.SmtpUsername := "bot";
                 SmtpConnectionInfo.SmtpPassword := "secret";
                 SmtpConnectionInfo.SmtpServerName := "mail.example.com";
                 SmtpConnectionInfo.SmtpServerHost := "mail.example.com";
                 SmtpConnectionInfo.SmtpPort := "587";
                 SmtpConnectionInfo.SmtpServerTimeout := 10;
                 SmtpConnectionInfo.SkipCertVerification := false;
                 SmtpConnectionInfo.ConnectionSecurity := "TLS";
                 SmtpConnectionInfo.Auth := true |} |}
         {| smtp.Name := "mail.example.com:587"; smtp.TLS := false;
            smtp.Auth := ["LOGIN"] |})
  = Err (errorsNew "unencrypted connection").
Proof.
  refine (eq_trans
            (proj1 (authChooser_Start_login sampleLibs _ _ _)) _).
  - intros Hin. apply list_elem_of_singleton in Hin. discriminate.
  - reflexivity.
Defined.

Lemma unencrypted_login_sends_nothing_witness :
  exists e,
    snd (run (sendMailUsingConfigAdvanced clearLoginNetwork sampleLibs
                sampleMail
                (sampleConfig "STARTTLS" "mail.example.com" true true)
                false)) = Err e.
Proof.
  apply (unencrypted_login_sends_nothing clearLoginNetwork sampleLibs
           sampleMail
           (sampleConfig "STARTTLS" "mail.example.com" true true) false []).
  - discriminate.
  - reflexivity.
  - intros Hin. apply list_elem_of_singleton in Hin. discriminate.
  - reflexivity.
Defined.
